(** * notare-monitor: a shallow embedding of [src/index.ts]

    The development follows the source file top-down:

    - [JS]            the fragment of JavaScript values and numbers the
                      code computes with;
    - [JsMap]         [Map] objects whose iteration order is observed;
    - [HandleTracker] the async-hook resource tracker (lines 46-100);
    - [GCTracker]     the garbage-collection observer (lines 102-157);
    - [Monitor]       the [Readable] that samples on a timer (lines 159-349).

    Conventions.  Numbers the code only counts, adds and subtracts
    (resource counts, [bigint] timestamps, microsecond and byte counters)
    are integers of [Z]; where the source can produce [NaN] from them the
    type says so ([JS.count]).  Numbers the code divides (the sample rate,
    the CPU ratio, the timer delay) are [JS.number]: [NaN], the two
    infinities, or a finite value held exactly as a rational, so the
    rounding of IEEE doubles is left out and [-0] is identified with [0].
    Everything the Node.js runtime supplies is an argument: static facts in
    a [Platform] record, per-sample readings in a [Readings] record. *)

From Stdlib Require Import Ascii QArith Qround Qabs Lqa.
From stdpp Require Import base option list strings gmap.

Local Open Scope string_scope.
Local Open Scope Z_scope.
Local Open Scope list_scope.

(** ** JavaScript values *)

Module JS.

(** A double: not-a-number, an infinity, or a finite value. *)
Inductive number : Type :=
| NaN
| Infinity (negative : bool)
| Fin (q : Q).

Definition of_Z (z : Z) : number := Fin (inject_Z z).

(** [a < b] and [a > b]; every comparison with [NaN] is false. *)
Definition lt (a b : number) : bool :=
  match a, b with
  | NaN, _ | _, NaN => false
  | Infinity true, Infinity true => false
  | Infinity true, _ => true
  | _, Infinity true => false
  | Infinity false, _ => false
  | _, Infinity false => true
  | Fin x, Fin y => if Qlt_le_dec x y then true else false
  end.

Definition gt (a b : number) : bool := lt b a.

(** [a <= b] *)
Definition le (a b : number) : bool :=
  match a, b with
  | NaN, _ | _, NaN => false
  | _, _ => negb (lt b a)
  end.

Definition Qsign_neg (q : Q) : bool := if Qlt_le_dec q 0 then true else false.
Definition Qis_zero (q : Q) : bool := Qeq_bool q 0.

(** [a / b].  The quotient of two finite values is exact, where the
    division of doubles rounds it to the nearest double: what is computed
    through [div] is the code's result up to that rounding. *)
Definition div (a b : number) : number :=
  match a, b with
  | NaN, _ | _, NaN => NaN
  | Infinity _, Infinity _ => NaN
  | Infinity s, Fin y => Infinity (xorb s (Qsign_neg y))
  | Fin x, Infinity _ => Fin 0
  | Fin x, Fin y =>
      if Qis_zero y
      then (if Qis_zero x then NaN else Infinity (Qsign_neg x))
      else Fin (x / y)
  end.

(** [Math.floor] *)
Definition Math_floor (a : number) : number :=
  match a with
  | Fin x => of_Z (Qfloor x)
  | _ => a
  end.

(** An integer-valued number that arithmetic on [undefined] may have
    turned into [NaN]. *)
Inductive count : Type :=
| Int (z : Z)
| NotANumber.

Definition count_add1 (c : count) : count :=
  match c with Int z => Int (z + 1) | NotANumber => NotANumber end.
Definition count_sub1 (c : count) : count :=
  match c with Int z => Int (z - 1) | NotANumber => NotANumber end.
(** [c === 0] *)
Definition count_is0 (c : count) : bool :=
  match c with Int z => bool_decide (z = 0) | NotANumber => false end.
(** [c > 0] *)
Definition count_gt0 (c : count) : bool :=
  match c with Int z => bool_decide (0 < z) | NotANumber => false end.
(** [c || 0]: zero and [NaN] are falsy. *)
Definition count_or0 (c : count) : count :=
  match c with Int z => Int z | NotANumber => Int 0 end.

#[export] Instance count_eq_dec : EqDecision count.
Proof. solve_decision. Defined.

(** The values a caller can put in an options object. *)
Inductive value : Type :=
| VUndefined
| VNull
| VBoolean (b : bool)
| VNumber (n : number)
| VString (s : string)
| VObject.

Definition typeof (v : value) : string :=
  match v with
  | VUndefined => "undefined"
  | VNull => "object"
  | VBoolean _ => "boolean"
  | VNumber _ => "number"
  | VString _ => "string"
  | VObject => "object"
  end.

Definition number_truthy (n : number) : bool :=
  match n with
  | NaN => false
  | Infinity _ => true
  | Fin q => negb (Qis_zero q)
  end.

Definition truthy (v : value) : bool :=
  match v with
  | VUndefined | VNull => false
  | VBoolean b => b
  | VNumber n => number_truthy n
  | VString s => negb (bool_decide (s = ""))
  | VObject => true
  end.

(** [a || b] *)
Definition or (a b : value) : value := if truthy a then a else b.

(** Reading a property that may be absent. *)
Definition prop (p : option value) : value := default VUndefined p.

Definition is_undefined (v : value) : bool :=
  match v with VUndefined => true | _ => false end.

End JS.

(** ** Insertion-ordered maps

  [Map.prototype.forEach] visits entries in insertion order, [set] on a
  present key keeps its place, and [delete] frees it. *)

Module JsMap.
Section JsMap.
Context {K V : Type} `{EqDecision K}.

Definition t : Type := list (K * V).

Definition empty : t := [].

Fixpoint get (k : K) (m : t) : option V :=
  match m with
  | [] => None
  | (k', v) :: m' => if decide (k = k') then Some v else get k m'
  end.

Definition has (k : K) (m : t) : bool :=
  match get k m with Some _ => true | None => false end.

Fixpoint set (k : K) (v : V) (m : t) : t :=
  match m with
  | [] => [(k, v)]
  | (k', v') :: m' =>
      if decide (k = k') then (k, v) :: m' else (k', v') :: set k v m'
  end.

Fixpoint delete (k : K) (m : t) : t :=
  match m with
  | [] => []
  | (k', v') :: m' =>
      if decide (k = k') then m' else (k', v') :: delete k m'
  end.

Definition keys (m : t) : list K := m.*1.

(** A map object never holds a key twice. *)
Definition wf (m : t) : Prop := NoDup (keys m).

End JsMap.
Arguments t : clear implicits.
End JsMap.

(** ** HandleTracker (src/index.ts, lines 46-100) *)

Module HandleTracker.
Import JS.

(** [HandlesSample]: two parallel arrays. *)
Record HandlesSample : Type := {
  titles : list string;
  data : list count
}.

(** The private fields; [hook_enabled] is the state of [#hook]. *)
Record t : Type := {
  types_ : gmap Z string;
  counts_ : JsMap.t string count;
  hook_enabled : bool
}.

(** The constructor: two empty maps, and the hook is enabled. *)
Definition new : t :=
  {| types_ := ∅; counts_ := JsMap.empty; hook_enabled := true |}.

(** The hook's [init (id, type)] callback. *)
Definition hook_init (id : Z) (type : string) (self : t) : t :=
  let types' := <[id := type]> (types_ self) in
  let counts' :=
    if negb (JsMap.has type (counts_ self))
    then JsMap.set type (Int 1) (counts_ self)
    else JsMap.set type
           (count_add1
              (match JsMap.get type (counts_ self) with
               | Some c => count_or0 c
               | None => Int 0
               end))
           (counts_ self) in
  {| types_ := types'; counts_ := counts'; hook_enabled := hook_enabled self |}.

(** The hook's [destroy (id)] callback.  [undefined - 1] is [NaN]. *)
Definition hook_destroy (id : Z) (self : t) : t :=
  let type := types_ self !! id in
  let types' := delete id (types_ self) in
  match type with
  | Some type =>
      let counts1 :=
        JsMap.set type
          (match JsMap.get type (counts_ self) with
           | Some c => count_sub1 c
           | None => NotANumber
           end)
          (counts_ self) in
      let counts2 :=
        if match JsMap.get type counts1 with
           | Some c => count_is0 c
           | None => false
           end
        then JsMap.delete type counts1
        else counts1 in
      {| types_ := types'; counts_ := counts2;
         hook_enabled := hook_enabled self |}
  | None =>
      {| types_ := types'; counts_ := counts_ self;
         hook_enabled := hook_enabled self |}
  end.

(** notare's own handles, filtered out of every snapshot. *)
Definition reserved (key : string) : bool :=
  bool_decide (key = "UDPWRAP") ||
  bool_decide (key = "Timeout") ||
  bool_decide (key = "ELDHISTOGRAM").

(** One turn of the [forEach] callback of the [counts] getter. *)
Definition counts_visit (obj : HandlesSample) (entry : string * count)
  : HandlesSample :=
  let '(key, value) := entry in
  let value := if reserved key then count_sub1 value else value in
  if count_gt0 value
  then {| titles := titles obj ++ [key]; data := data obj ++ [value] |}
  else obj.

(** The [counts] getter. *)
Definition counts (self : t) : HandlesSample :=
  fold_left counts_visit (counts_ self) {| titles := []; data := [] |}.

(** The [destroy ()] method. *)
Definition destroy (self : t) : t :=
  {| types_ := types_ self; counts_ := counts_ self; hook_enabled := false |}.

(** What the async-hook runtime may deliver; an event reaches the
    callbacks only while the hook is enabled. *)
Inductive event : Type :=
| Init (id : Z) (type : string)
| Destroy (id : Z).

Definition deliver (self : t) (e : event) : t :=
  if hook_enabled self
  then match e with
       | Init id type => hook_init id type self
       | Destroy id => hook_destroy id self
       end
  else self.

Definition run (es : list event) (self : t) : t := fold_left deliver es self.

(** The snapshot read as a table: the pairs of a title and its count. *)
Definition entries (s : HandlesSample) : list (string * count) :=
  zip (titles s) (data s).

(** What an entry of [#counts] contributes to a snapshot. *)
Definition reported (entry : string * count) : option (string * count) :=
  let value := if reserved entry.1 then count_sub1 entry.2 else entry.2 in
  if count_gt0 value then Some (entry.1, value) else None.

(** The number of live identifiers registered under a type. *)
Definition live (type : string) (m : gmap Z string) : nat :=
  size (filter (fun p : Z * string => p.2 = type) m).

(** The raw count of a type is a positive integer that covers the live
    identifiers of that type, and a type without a count has none. *)
Definition count_ok (type : string) (self : t) : Prop :=
  match JsMap.get type (counts_ self) with
  | Some (Int c) => 1 <= c /\ Z.of_nat (live type (types_ self)) <= c
  | Some NotANumber => False
  | None => live type (types_ self) = 0%nat
  end.

Definition invariant (self : t) : Prop :=
  JsMap.wf (counts_ self) /\ forall type, count_ok type self.

(** A trace in which no [init] names an identifier that is still
    registered, as the runtime's fresh [asyncId]s guarantee. *)
Fixpoint fresh_ids (es : list event) (self : t) : bool :=
  match es with
  | [] => true
  | e :: es =>
      match e with
      | Init id _ => bool_decide (types_ self !! id = None)
      | Destroy _ => true
      end && fresh_ids es (deliver self e)
  end.

(** The raw count of a type is the number of its live identifiers. *)
Definition count_exact (type : string) (self : t) : Prop :=
  JsMap.get type (counts_ self) =
  if decide (live type (types_ self) = 0%nat) then None
  else Some (Int (Z.of_nat (live type (types_ self)))).

Definition exact (self : t) : Prop :=
  JsMap.wf (counts_ self) /\ forall type, count_exact type self.

End HandleTracker.

(** ** What Node.js supplies

  The types of the values the runtime hands to the code, and the two
  records through which the embedding receives them. *)

Module Node.
Import JS.

Inductive Error : Type :=
| TypeError (message : string)
| RangeError (message : string).

(** [process.env], as far as it is read. *)
Record Env : Type := {
  NOTARE_HZ : option string;
  NOTARE_HANDLES : option string;
  NOTARE_GC : option string
}.

(** [process.cpuUsage ()]: microseconds. *)
Record CpuUsage : Type := { user : Z; system : Z }.

(** [process.memoryUsage ()]: bytes. *)
Record MemoryUsage : Type := {
  mu_arrayBuffers : Z; mu_external : Z; mu_heapTotal : Z;
  mu_heapUsed : Z; mu_rss : Z
}.

(** An element of [os.cpus ()]. *)
Record CpuTimes : Type := {
  t_user : Z; t_nice : Z; t_sys : Z; t_idle : Z; t_irq : Z
}.
Record CpuInfo : Type := { ci_model : string; ci_speed : Z; times : CpuTimes }.

(** [performance.eventLoopUtilization ()]. *)
Record EventLoopUtilization : Type := {
  elu_idle : number; elu_active : number; elu_utilization : number
}.

(** The queries of a histogram object, answered at one instant. *)
Record Histogram : Type := {
  h_min : number; h_max : number; h_mean : number; h_stddev : number;
  h_percentile : Q -> number
}.

(** An entry of a [PerformanceObserverEntryList] for [gc]. *)
Record PerformanceEntry : Type := { duration : number; kind : Z }.

(** What does not change while a process runs.
    [monitorEventLoopDelay] is [None] where [perf_hooks] does not export
    it; otherwise it tells, for a resolution, whether the call throws.
    [hdr lowest highest recorded] stands for a [native-hdr-histogram]
    object created with these bounds, after [record] was called with the
    values of [recorded], oldest first. *)
Record Platform : Type := {
  env : Env;
  parseInt : string -> number;
  string_to_number : string -> number;
  monitorEventLoopDelay : option (number -> option Error);
  hdr : Z -> Z -> list number -> Histogram;
  pid : Z;
  threadId : Z;
  isMainThread : bool
}.

(** What the accessors return when one sample is taken.
    [cpuUsage previous] is [process.cpuUsage (previous)];
    [eventLoopUtilization] is [None] where [performance] has no such
    function; [eld] is the state of the event-loop-delay histogram. *)
Record Readings : Type := {
  hrtime_bigint : Z;
  cpuUsage : option CpuUsage -> CpuUsage;
  memoryUsage : MemoryUsage;
  cpus : list CpuInfo;
  loadavg : number * number * number;
  eventLoopUtilization : option EventLoopUtilization;
  eld : Histogram
}.

(** [ToNumber], for the operand of an arithmetic operator.  [VObject]
    stands for a plain object, which converts to [NaN]. *)
Definition to_number (P : Platform) (v : value) : number :=
  match v with
  | VUndefined => NaN
  | VNull => Fin 0
  | VBoolean b => if b then Fin 1 else Fin 0
  | VNumber n => n
  | VString s => string_to_number P s
  | VObject => NaN
  end.

End Node.

(** ** The sample types of [./common] *)

Module Common.
Import JS.

Record MemorySample : Type := {
  arrayBuffers : Z; external : Z; heapTotal : Z; heapUsed : Z; rss : Z
}.

Record CpuSample : Type := {
  model : string; speed : Z;
  idle : Z; irq : Z; nice : Z; sys : Z; user : Z
}.

Record LoadAvgSample : Type := { a1 : number; a5 : number; a15 : number }.

Record HistogramSample : Type := {
  min : number; max : number; mean : number; stddev : number;
  p0_001 : number; p0_01 : number; p0_1 : number; p1 : number;
  p2_5 : number; p10 : number; p25 : number; p50 : number; p75 : number;
  p90 : number; p97_5 : number; p99 : number; p99_9 : number;
  p99_99 : number; p99_999 : number
}.

Record GCSample : Type := {
  scavenges : Z; sweeps : Z; incremental : Z; weakcbs : Z;
  gc_duration : HistogramSample
}.

Record LoopUtilization : Type := {
  lu_idle : option number; lu_active : option number;
  lu_utilization : option number
}.

Record Sample : Type := {
  pid : Z;
  threadId : Z;
  isMainThread : bool;
  memory : MemorySample;
  cpu : number;
  cpus : list CpuSample;
  loadAvg : LoadAvgSample;
  eventLoop : option HistogramSample;
  handles : option HandleTracker.HandlesSample;
  gc : option GCSample;
  loopUtilization : LoopUtilization
}.

(** The nineteen queries both trackers put to a histogram. *)
Definition summary (h : Node.Histogram) : HistogramSample :=
  let p := Node.h_percentile h in
  {| min := Node.h_min h; max := Node.h_max h;
     mean := Node.h_mean h; stddev := Node.h_stddev h;
     p0_001 := p (1 # 1000); p0_01 := p (1 # 100); p0_1 := p (1 # 10);
     p1 := p (1 # 1); p2_5 := p (5 # 2); p10 := p (10 # 1);
     p25 := p (25 # 1); p50 := p (50 # 1); p75 := p (75 # 1);
     p90 := p (90 # 1); p97_5 := p (195 # 2);
     p99 := p (99 # 1); p99_9 := p (999 # 10); p99_99 := p (9999 # 100);
     p99_999 := p (99999 # 1000) |}.

End Common.

(** ** GCTracker (src/index.ts, lines 102-157) *)

Module GCTracker.
Import JS.

(** [#duration] is held as the values recorded into it. *)
Record t : Type := {
  duration_ : list number;
  scavenges_ : Z;
  sweeps_ : Z;
  incremental_ : Z;
  weakcbs_ : Z
}.

Definition new : t :=
  {| duration_ := []; scavenges_ := 0; sweeps_ := 0;
     incremental_ := 0; weakcbs_ := 0 |}.

(** The body of [entries.forEach]. *)
Definition observe_entry (self : t) (entry : Node.PerformanceEntry) : t :=
  let d := duration_ self ++ [Node.duration entry] in
  let k := Node.kind entry in
  {| duration_ := d;
     scavenges_ := if decide (k = 0) then scavenges_ self + 1 else scavenges_ self;
     sweeps_ := if decide (k = 1) then sweeps_ self + 1 else sweeps_ self;
     incremental_ := if decide (k = 2) then incremental_ self + 1 else incremental_ self;
     weakcbs_ := if decide (k = 3) then weakcbs_ self + 1 else weakcbs_ self |}.

(** The observer callback. *)
Definition observe (entries : list Node.PerformanceEntry) (self : t) : t :=
  fold_left observe_entry entries self.

(** The [sample] getter. *)
Definition sample (P : Node.Platform) (self : t) : Common.GCSample :=
  {| Common.scavenges := scavenges_ self;
     Common.sweeps := sweeps_ self;
     Common.incremental := incremental_ self;
     Common.weakcbs := weakcbs_ self;
     Common.gc_duration :=
       Common.summary (Node.hdr P 1 10000 (duration_ self)) |}.

(** The number of entries of a kind in a batch. *)
Definition of_kind (k : Z) (entries : list Node.PerformanceEntry) : Z :=
  Z.of_nat (length (filter (fun e => Node.kind e = k) entries)).

End GCTracker.

(** ** The part of [stream.Readable] that [Monitor] inherits

  A stream in paused mode, as Node.js documents it: [push] appends to the
  internal buffer and answers whether the buffer is still below the high
  water mark, [push (null)] ends the stream, and [read] hands the oldest
  chunk to the consumer. *)

Module Readable.
Section Readable.
Context {A : Type}.

Record t : Type := {
  buffer : list A;
  ended : bool;
  highWaterMark : nat
}.

(** [new Readable ({ objectMode })]: sixteen objects, or 16 KiB. *)
Definition new (objectMode : bool) : t :=
  {| buffer := []; ended := false;
     highWaterMark := if objectMode then 16%nat else Z.to_nat 16384 |}.

Definition push (chunk : option A) (s : t) : bool * t :=
  match chunk with
  | None =>
      (false, {| buffer := buffer s; ended := true;
                 highWaterMark := highWaterMark s |})
  | Some a =>
      if ended s then (false, s)
      else
        let b := buffer s ++ [a] in
        (bool_decide (length b < highWaterMark s)%nat,
         {| buffer := b; ended := false;
            highWaterMark := highWaterMark s |})
  end.

Definition read (s : t) : option A * t :=
  match buffer s with
  | [] => (None, s)
  | a :: b =>
      (Some a, {| buffer := b; ended := ended s;
                  highWaterMark := highWaterMark s |})
  end.

(** The buffer has reached the high water mark: [push] has answered
    [false], the request to stop pushing until the consumer reads. *)
Definition full (s : t) : bool :=
  bool_decide (highWaterMark s <= length (buffer s))%nat.

End Readable.
Arguments t : clear implicits.
End Readable.

(** ** Monitor (src/index.ts, lines 26-42 and 159-349) *)

Module Monitor.
Import JS Node.

(** [MonitorOptions]; [None] is an absent property.  A caller written in
    JavaScript can store any value, whatever the interface declares. *)
Record MonitorOptions : Type := {
  hz : option value;
  handles : option value;
  gc : option value
}.

(** The argument of the constructor: an options object, or anything
    else.  [ArgValue VObject] is an object with none of the three
    properties. *)
Inductive argument : Type :=
| ArgValue (v : value)
| ArgObject (o : MonitorOptions).

Definition no_options : MonitorOptions :=
  {| hz := None; handles := None; gc := None |}.

Definition arg_typeof (a : argument) : string :=
  match a with ArgValue v => typeof v | ArgObject _ => "object" end.
Definition arg_is_undefined (a : argument) : bool :=
  match a with ArgValue VUndefined => true | _ => false end.
Definition arg_is_null (a : argument) : bool :=
  match a with ArgValue VNull => true | _ => false end.
(** The properties read off the argument. *)
Definition properties (a : argument) : MonitorOptions :=
  match a with ArgValue _ => no_options | ArgObject o => o end.

(** [{ ...a, ...b }] *)
Definition spread (a b : MonitorOptions) : MonitorOptions :=
  {| hz := match hz b with Some v => Some v | None => hz a end;
     handles := match handles b with Some v => Some v | None => handles a end;
     gc := match gc b with Some v => Some v | None => gc a end |}.

(** [process.env.X || '0'] *)
Definition env_or (x : option string) (d : string) : string :=
  match x with
  | Some s => if bool_decide (s = "") then d else s
  | None => d
  end.

(** Lines 38-42. *)
Definition kDefaultMonitorOptions (P : Platform) : MonitorOptions :=
  {| hz :=
       Some (VNumber
               (let n := parseInt P (env_or (NOTARE_HZ (env P)) "0") in
                if number_truthy n then n else Fin 2));
     handles :=
       Some (VBoolean (bool_decide (NOTARE_HANDLES (env P) = Some "1")));
     gc :=
       Some (VBoolean (bool_decide (NOTARE_GC (env P) = Some "1"))) |}.

(** The objects behind [#timer] and [#elmonitor]. *)
Record Timer : Type := { delay : number; hasRef : bool }.
Record EventLoopDelayMonitor : Type := { resolution : number; enabled : bool }.

(** The calls into the runtime that the class makes, recorded in the
    order they happen. *)
Inductive Call : Type :=
| Push (chunk : option Common.Sample)
| SetInterval (delay : number)
| MonitorEventLoopDelay (resolution : number)
| EldEnable
| EldDisable
| TimerUnref
| TimerRef
| ClearInterval
| HookEnable
| HookDisable
| Observe
| Callback.

(** A [Monitor] object: the inherited stream, the private fields
    ([undefined] until assigned), and the record of its calls. *)
Record t : Type := {
  stream : Readable.t Common.Sample;
  options_ : option MonitorOptions;
  timer_ : option Timer;
  elmonitor_ : option EventLoopDelayMonitor;
  lastTS_ : option Z;
  lastCPUUsage_ : option CpuUsage;
  handles_ : option HandleTracker.t;
  gc_ : option GCTracker.t;
  calls : list Call
}.

Definition set_stream x (this : t) : t :=
  {| stream := x; options_ := options_ this; timer_ := timer_ this;
     elmonitor_ := elmonitor_ this; lastTS_ := lastTS_ this;
     lastCPUUsage_ := lastCPUUsage_ this; handles_ := handles_ this;
     gc_ := gc_ this; calls := calls this |}.
Definition set_options x (this : t) : t :=
  {| stream := stream this; options_ := x; timer_ := timer_ this;
     elmonitor_ := elmonitor_ this; lastTS_ := lastTS_ this;
     lastCPUUsage_ := lastCPUUsage_ this; handles_ := handles_ this;
     gc_ := gc_ this; calls := calls this |}.
Definition set_timer x (this : t) : t :=
  {| stream := stream this; options_ := options_ this; timer_ := x;
     elmonitor_ := elmonitor_ this; lastTS_ := lastTS_ this;
     lastCPUUsage_ := lastCPUUsage_ this; handles_ := handles_ this;
     gc_ := gc_ this; calls := calls this |}.
Definition set_elmonitor x (this : t) : t :=
  {| stream := stream this; options_ := options_ this; timer_ := timer_ this;
     elmonitor_ := x; lastTS_ := lastTS_ this;
     lastCPUUsage_ := lastCPUUsage_ this; handles_ := handles_ this;
     gc_ := gc_ this; calls := calls this |}.
Definition set_lastTS x (this : t) : t :=
  {| stream := stream this; options_ := options_ this; timer_ := timer_ this;
     elmonitor_ := elmonitor_ this; lastTS_ := x;
     lastCPUUsage_ := lastCPUUsage_ this; handles_ := handles_ this;
     gc_ := gc_ this; calls := calls this |}.
Definition set_lastCPUUsage x (this : t) : t :=
  {| stream := stream this; options_ := options_ this; timer_ := timer_ this;
     elmonitor_ := elmonitor_ this; lastTS_ := lastTS_ this;
     lastCPUUsage_ := x; handles_ := handles_ this;
     gc_ := gc_ this; calls := calls this |}.
Definition set_handles x (this : t) : t :=
  {| stream := stream this; options_ := options_ this; timer_ := timer_ this;
     elmonitor_ := elmonitor_ this; lastTS_ := lastTS_ this;
     lastCPUUsage_ := lastCPUUsage_ this; handles_ := x;
     gc_ := gc_ this; calls := calls this |}.
Definition set_gc x (this : t) : t :=
  {| stream := stream this; options_ := options_ this; timer_ := timer_ this;
     elmonitor_ := elmonitor_ this; lastTS_ := lastTS_ this;
     lastCPUUsage_ := lastCPUUsage_ this; handles_ := handles_ this;
     gc_ := x; calls := calls this |}.
Definition add_call c (this : t) : t :=
  {| stream := stream this; options_ := options_ this; timer_ := timer_ this;
     elmonitor_ := elmonitor_ this; lastTS_ := lastTS_ this;
     lastCPUUsage_ := lastCPUUsage_ this; handles_ := handles_ this;
     gc_ := gc_ this; calls := calls this ++ [c] |}.

(** *** Methods run on [this] and may throw *)

Definition M (A : Type) : Type := t -> (Error + A) * t.

#[export] Instance M_ret : MRet M := fun A a this => (inr a, this).
#[export] Instance M_bind : MBind M := fun A B f m this =>
  match m this with
  | (inl e, this') => (inl e, this')
  | (inr a, this') => f a this'
  end.

Definition throw {A} (e : Error) : M A := fun this => (inl e, this).
Definition get : M t := fun this => (inr this, this).
Definition modify (f : t -> t) : M unit := fun this => (inr tt, f this).
Definition call (c : Call) : M unit := modify (add_call c).
Definition when (b : bool) (m : M unit) : M unit := if b then m else mret tt.

(** Reading a field, or a property of the object in it; the latter
    throws while the field is [undefined]. *)
Definition deref {A} (field : t -> option A) (what : string) : M A :=
  fun this =>
    match field this with
    | Some a => (inr a, this)
    | None => (inl (TypeError what), this)
    end.

(** The state right after [super ({ objectMode: true })]. *)
Definition super : t :=
  {| stream := Readable.new true; options_ := None; timer_ := None;
     elmonitor_ := None; lastTS_ := None; lastCPUUsage_ := None;
     handles_ := None; gc_ := None; calls := [] |}.

(** [this.push (chunk)] *)
Definition push (chunk : option Common.Sample) : M bool :=
  fun this =>
    let '(more, s) := Readable.push chunk (stream this) in
    (inr more, add_call (Push chunk) (set_stream s this)).

Definition with_handles x (s : Common.Sample) : Common.Sample :=
  {| Common.pid := Common.pid s; Common.threadId := Common.threadId s;
     Common.isMainThread := Common.isMainThread s;
     Common.memory := Common.memory s; Common.cpu := Common.cpu s;
     Common.cpus := Common.cpus s; Common.loadAvg := Common.loadAvg s;
     Common.eventLoop := Common.eventLoop s; Common.handles := x;
     Common.gc := Common.gc s;
     Common.loopUtilization := Common.loopUtilization s |}.
Definition with_eventLoop x (s : Common.Sample) : Common.Sample :=
  {| Common.pid := Common.pid s; Common.threadId := Common.threadId s;
     Common.isMainThread := Common.isMainThread s;
     Common.memory := Common.memory s; Common.cpu := Common.cpu s;
     Common.cpus := Common.cpus s; Common.loadAvg := Common.loadAvg s;
     Common.eventLoop := x; Common.handles := Common.handles s;
     Common.gc := Common.gc s;
     Common.loopUtilization := Common.loopUtilization s |}.
Definition with_gc x (s : Common.Sample) : Common.Sample :=
  {| Common.pid := Common.pid s; Common.threadId := Common.threadId s;
     Common.isMainThread := Common.isMainThread s;
     Common.memory := Common.memory s; Common.cpu := Common.cpu s;
     Common.cpus := Common.cpus s; Common.loadAvg := Common.loadAvg s;
     Common.eventLoop := Common.eventLoop s;
     Common.handles := Common.handles s; Common.gc := x;
     Common.loopUtilization := Common.loopUtilization s |}.

(** [1e6] *)
Definition _1e6 : number := Fin (1000000 # 1).

(** [_cpupct ()], lines 214-221.  The [bigint] difference is an integer;
    [parseInt] of its decimal form is that integer. *)
Definition _cpupct (r : Readings) : M number :=
  let now := hrtime_bigint r in
  lastTS ← deref lastTS_ "Cannot mix BigInt and other types";
  let elapsed := div (of_Z (now - lastTS)) _1e6 in
  this ← get;
  let usage := cpuUsage r (lastCPUUsage_ this) in
  modify (set_lastCPUUsage (Some usage));;
  let total := div (of_Z (user usage + system usage)) _1e6 in
  modify (set_lastTS (Some now));;
  mret (div total elapsed).

Definition cpu_sample (cpu : CpuInfo) : Common.CpuSample :=
  {| Common.model := ci_model cpu;
     Common.speed := ci_speed cpu;
     Common.idle := t_idle (times cpu);
     Common.irq := t_irq (times cpu);
     Common.nice := t_nice (times cpu);
     Common.sys := t_sys (times cpu);
     Common.user := t_user (times cpu) |}.

(** [_sample ()], lines 223-307. *)
Definition _sample (P : Platform) (r : Readings) : M unit :=
  let memory := memoryUsage r in
  let cpus := Node.cpus r in
  let loadAvg := loadavg r in
  let '(idle, active, utilization) :=
    match eventLoopUtilization r with
    | Some util =>
        (Some (elu_idle util), Some (elu_active util),
         Some (elu_utilization util))
    | None => (None, None, None)
    end in
  cpu ← _cpupct r;
  let sample :=
    {| Common.pid := Node.pid P;
       Common.threadId := Node.threadId P;
       Common.isMainThread := Node.isMainThread P;
       Common.memory :=
         {| Common.arrayBuffers := mu_arrayBuffers memory;
            Common.external := mu_external memory;
            Common.heapTotal := mu_heapTotal memory;
            Common.heapUsed := mu_heapUsed memory;
            Common.rss := mu_rss memory |};
       Common.cpu := cpu;
       Common.cpus := map cpu_sample cpus;
       Common.loadAvg :=
         {| Common.a1 := loadAvg.1.1; Common.a5 := loadAvg.1.2;
            Common.a15 := loadAvg.2 |};
       Common.eventLoop := None;
       Common.handles := None;
       Common.gc := None;
       Common.loopUtilization :=
         {| Common.lu_idle := idle; Common.lu_active := active;
            Common.lu_utilization := utilization |} |} in
  this ← get;
  let sample :=
    match handles_ this with
    | Some h => with_handles (Some (HandleTracker.counts h)) sample
    | None => sample
    end in
  let sample :=
    match elmonitor_ this with
    | Some _ => with_eventLoop (Some (Common.summary (eld r))) sample
    | None => sample
    end in
  let sample :=
    match gc_ this with
    | Some g => with_gc (Some (GCTracker.sample P g)) sample
    | None => sample
    end in
  push (Some sample);;
  mret tt.

(** [_read ()], lines 324-326: nothing to do. *)
Definition _read : M unit := mret tt.

(** The constructor, lines 168-212 ([debug] output left out), in two
    parts.  First the checks of lines 173-187; they hand on the argument
    as the object whose properties are read from then on. *)
Definition validate (P : Platform) (options : argument) : M MonitorOptions :=
  let options :=
    if arg_is_undefined options then ArgObject no_options else options in
  when (negb (arg_is_undefined options) &&
        (negb (String.eqb (arg_typeof options) "object") ||
         arg_is_null options))
    (throw (TypeError "options must be an object"));;
  let options := properties options in
  when (negb (is_undefined (prop (hz options))))
    (when (negb (String.eqb (typeof (prop (hz options))) "number"))
       (throw (TypeError "options.hz must be a number between 1 and 1000"));;
     when (lt (to_number P (prop (hz options))) (Fin 1) ||
           gt (to_number P (prop (hz options))) (Fin 1000))
       (throw (RangeError "options.hz must be a number between 1 and 1000")));;
  when (negb (is_undefined (prop (handles options))) &&
        negb (String.eqb (typeof (prop (handles options))) "boolean"))
    (throw (TypeError "options.handles must be a boolean"));;
  mret options.

(** The [delay] of lines 192-193, from the options stored in
    [#options].  It floors an exact quotient: for an integer rate that is
    the floor the code computes, for other rates the rounded quotient of
    the code can reach the next integer. *)
Definition delay_of (P : Platform) (o : MonitorOptions) : number :=
  Math_floor
    (div (Fin 1000)
       (to_number P
          (JS.or (prop (hz o)) (prop (hz (kDefaultMonitorOptions P)))))).

(** Then lines 189-208.  [t0] is what [process.hrtime.bigint ()] returns
    on line 190, [r0] what the accessors return to the first
    [_sample ()]. *)
Definition start (P : Platform) (options : MonitorOptions)
    (t0 : Z) (r0 : Readings) : M unit :=
  modify (set_options (Some (spread (kDefaultMonitorOptions P) options)));;
  modify (set_lastTS (Some t0));;
  o ← deref options_ "Cannot read properties of undefined";
  let delay := delay_of P o in
  _sample P r0;;
  call (SetInterval delay);;
  modify (set_timer (Some {| delay := delay; hasRef := true |}));;
  match monitorEventLoopDelay P with
  | Some create =>
      call (MonitorEventLoopDelay delay);;
      match create delay with
      | Some e => throw e
      | None =>
          modify (set_elmonitor
                    (Some {| resolution := delay; enabled := false |}));;
          call EldEnable;;
          modify (set_elmonitor
                    (Some {| resolution := delay; enabled := true |}))
      end
  | None => mret tt
  end;;
  tm ← deref timer_ "Cannot read properties of undefined";
  call TimerUnref;;
  modify (set_timer (Some {| delay := Monitor.delay tm; hasRef := false |}));;
  o ← deref options_ "Cannot read properties of undefined";
  when (truthy (prop (handles o)))
    (call HookEnable;;
     modify (set_handles (Some HandleTracker.new)));;
  o ← deref options_ "Cannot read properties of undefined";
  when (truthy (prop (gc o)))
    (call Observe;;
     modify (set_gc (Some GCTracker.new))).

Definition constructor (P : Platform) (options : argument)
    (t0 : Z) (r0 : Readings) : M unit :=
  options ← validate P options;
  start P options t0 r0.

(** [new Monitor (options)] *)
Definition new (P : Platform) (options : argument) (t0 : Z) (r0 : Readings)
  : (Error + unit) * t :=
  constructor P options t0 r0 super.

(** [_destroy (err, callback)], lines 309-322. *)
Definition _destroy : M unit :=
  push None;;
  this ← get;
  match elmonitor_ this with
  | Some m =>
      call EldDisable;;
      modify (set_elmonitor
                (Some {| resolution := resolution m; enabled := false |}))
  | None => mret tt
  end;;
  this ← get;
  match handles_ this with
  | Some h =>
      call HookDisable;;
      modify (set_handles (Some (HandleTracker.destroy h)))
  | None => mret tt
  end;;
  this ← get;
  match timer_ this with
  | Some _ =>
      call ClearInterval;;
      modify (set_timer None)
  | None => mret tt
  end;;
  call Callback.

(** [ref ()] and [unref ()], lines 328-336. *)
Definition ref : M unit :=
  tm ← deref timer_ "Cannot read properties of undefined";
  call TimerRef;;
  modify (set_timer (Some {| delay := delay tm; hasRef := true |})).

Definition unref : M unit :=
  tm ← deref timer_ "Cannot read properties of undefined";
  call TimerUnref;;
  modify (set_timer (Some {| delay := delay tm; hasRef := false |})).

(** *** What happens to a [Monitor] after construction *)

(** The consumer's [read ()]: the stream asks [_read] for more, then
    hands over the oldest buffered sample. *)
Definition shift : M (option Common.Sample) :=
  fun this =>
    let '(chunk, s) := Readable.read (stream this) in
    (inr chunk, set_stream s this).

Definition read : M (option Common.Sample) := _read;; shift.

Inductive input : Type :=
| TimerFires (r : Readings)
| ConsumerReads
| AsyncHook (e : HandleTracker.event)
| GCObserved (entries : list PerformanceEntry)
| Destroyed.

(** The timer callback [() => this._sample ()] runs while the interval
    is armed. *)
Definition tick (P : Platform) (r : Readings) : M unit :=
  this ← get;
  match timer_ this with
  | Some _ => _sample P r
  | None => mret tt
  end.

Definition step (P : Platform) (i : input) : M unit :=
  match i with
  | TimerFires r => tick P r
  | ConsumerReads => read;; mret tt
  | AsyncHook e =>
      modify (fun this =>
        set_handles
          ((fun h => HandleTracker.deliver h e) <$> handles_ this) this)
  | GCObserved entries =>
      modify (fun this =>
        set_gc (GCTracker.observe entries <$> gc_ this) this)
  | Destroyed => _destroy
  end.

Fixpoint steps (P : Platform) (inputs : list input) : M unit :=
  match inputs with
  | [] => mret tt
  | i :: inputs => step P i;; steps P inputs
  end.

(** *** Notions used to state the properties *)

(** A number the range check of line 181 rejects. *)
Definition out_of_range (n : number) : Prop :=
  match n with
  | NaN => False
  | Infinity _ => True
  | Fin q => (q < 1 \/ 1000 < q)%Q
  end.

(** A flag the check of line 185 lets pass. *)
Definition boolean_or_undefined (v : value) : Prop :=
  v = VUndefined \/ exists b, v = VBoolean b.

(** A monitor that samples: the interval is armed, the clock has been
    read, and the stream has not ended. *)
Definition running (this : t) : Prop :=
  is_Some (timer_ this) /\ is_Some (lastTS_ this) /\
  Readable.ended (stream this) = false.

Definition is_destroyed (i : input) : bool :=
  match i with Destroyed => true | _ => false end.

Definition is_push (c : Call) : bool :=
  match c with Push _ => true | _ => false end.

End Monitor.

(** ** A Node.js process to run the code in

  Concrete arguments for the examples: a platform after the documentation
  of Node.js, and readings of a process that has used half a second of
  CPU time per second of wall-clock time. *)

Module Fixture.
Import JS Node.

Definition digit (c : Ascii.ascii) : option Z :=
  let n := Z.of_nat (Ascii.nat_of_ascii c) in
  if bool_decide (48 <= n <= 57) then Some (n - 48) else None.

(** The longest prefix of decimal digits, read as an integer. *)
Fixpoint digits (s : string) (acc : option Z) : option Z :=
  match s with
  | String c s' =>
      match digit c with
      | Some d => digits s' (Some (10 * default 0 acc + d))
      | None => acc
      end
  | EmptyString => acc
  end.

Definition signed (read : string -> option Z) (s : string) : number :=
  match s with
  | String "-"%char s' => from_option (fun z => of_Z (- z)) NaN (read s')
  | String "+"%char s' => from_option of_Z NaN (read s')
  | _ => from_option of_Z NaN (read s)
  end.

(** Leading white space, in the ASCII range. *)
Definition is_space (c : Ascii.ascii) : bool :=
  let n := Z.of_nat (Ascii.nat_of_ascii c) in
  bool_decide (9 <= n <= 13) || bool_decide (n = 32).

Fixpoint trim_start (s : string) : string :=
  match s with
  | String c s' => if is_space c then trim_start s' else s
  | EmptyString => s
  end.

Definition hex_digit (c : Ascii.ascii) : option Z :=
  let n := Z.of_nat (Ascii.nat_of_ascii c) in
  if bool_decide (48 <= n <= 57) then Some (n - 48)
  else if bool_decide (65 <= n <= 70) then Some (n - 55)
  else if bool_decide (97 <= n <= 102) then Some (n - 87)
  else None.

Fixpoint hex_digits (s : string) (acc : option Z) : option Z :=
  match s with
  | String c s' =>
      match hex_digit c with
      | Some d => hex_digits s' (Some (16 * default 0 acc + d))
      | None => acc
      end
  | EmptyString => acc
  end.

(** The digits [parseInt] reads after the sign: hexadecimal after [0x]
    or [0X], decimal otherwise. *)
Definition unsigned (s : string) : option Z :=
  match s with
  | String "0"%char (String "x"%char s')
  | String "0"%char (String "X"%char s') => hex_digits s' None
  | _ => digits s None
  end.

(** [parseInt (s)]: white space is skipped, then a sign and the longest
    run of digits are read, and what follows is ignored; without a digit
    the result is [NaN].  White space outside ASCII is not skipped. *)
Definition parseInt (s : string) : number :=
  signed unsigned (trim_start s).

Fixpoint all_digits (s : string) : bool :=
  match s with
  | String c s' => bool_decide (is_Some (digit c)) && all_digits s'
  | EmptyString => true
  end.

(** [Number (s)] for a string of decimal digits; the empty string
    is zero, anything else is not a number. *)
Definition string_to_number (s : string) : number :=
  if bool_decide (s = "") then Fin 0
  else signed (fun s => if all_digits s then digits s None else None) s.

(** [Number.isSafeInteger] *)
Definition isSafeInteger (n : number) : bool :=
  match n with
  | Fin q =>
      Qeq_bool q (inject_Z (Qfloor q)) &&
      bool_decide (Z.abs (Qfloor q) <= 2 ^ 53 - 1)
  | _ => false
  end.

(** [perf_hooks.monitorEventLoopDelay ({ resolution })] throws a
    [RangeError] unless the resolution is a safe integer greater than
    zero. *)
Definition monitorEventLoopDelay (resolution : number) : option Error :=
  if le resolution (Fin 0) || negb (isSafeInteger resolution)
  then Some (RangeError "resolution")
  else None.

(** A histogram that answers every query with [x]. *)
Definition flat (x : number) : Histogram :=
  {| h_min := x; h_max := x; h_mean := x; h_stddev := x;
     h_percentile := fun _ => x |}.

Definition no_env : Env :=
  {| NOTARE_HZ := None; NOTARE_HANDLES := None; NOTARE_GC := None |}.

Definition node (e : Env) : Platform :=
  {| env := e;
     Node.parseInt := parseInt;
     Node.string_to_number := string_to_number;
     Node.monitorEventLoopDelay := Some monitorEventLoopDelay;
     hdr := fun _ _ _ => flat NaN;
     pid := 4242;
     threadId := 0;
     isMainThread := true |}.

(** A runtime without [monitorEventLoopDelay]. *)
Definition old_node (e : Env) : Platform :=
  {| env := e;
     Node.parseInt := parseInt;
     Node.string_to_number := string_to_number;
     Node.monitorEventLoopDelay := None;
     hdr := fun _ _ _ => flat NaN;
     pid := 4242;
     threadId := 0;
     isMainThread := true |}.

(** [process.cpuUsage (previous)] when the process has consumed
    [total] so far: the difference to [previous], if given. *)
Definition process_cpuUsage (total : CpuUsage) (previous : option CpuUsage)
  : CpuUsage :=
  match previous with
  | Some p =>
      {| user := user total - user p; system := system total - system p |}
  | None => total
  end.

(** The readings [seconds] seconds after the process started. *)
Definition at_second (seconds : Z) : Readings :=
  {| hrtime_bigint := seconds * 1000000000;
     cpuUsage :=
       process_cpuUsage
         {| user := seconds * 400000; system := seconds * 100000 |};
     memoryUsage :=
       {| mu_arrayBuffers := 1024; mu_external := 2048;
          mu_heapTotal := 8388608; mu_heapUsed := 4194304;
          mu_rss := 33554432 |};
     cpus :=
       [{| ci_model := "cpu"; ci_speed := 2400;
           times := {| t_user := 1000; t_nice := 0; t_sys := 500;
                       t_idle := 9000; t_irq := 0 |} |}];
     loadavg := (Fin (1 # 2), Fin (1 # 4), Fin (1 # 8));
     eventLoopUtilization :=
       Some {| elu_idle := Fin 900; elu_active := Fin 100;
               elu_utilization := Fin (1 # 10) |};
     eld := flat (Fin 0) |}.

(** *** Monitors in that process *)

Definition with_rate (n : number) : Monitor.argument :=
  Monitor.ArgObject
    {| Monitor.hz := Some (VNumber n); Monitor.handles := None;
       Monitor.gc := None |}.

Definition hz_2000 : Env :=
  {| NOTARE_HZ := Some "2000"; NOTARE_HANDLES := None; NOTARE_GC := None |}.

Definition hz_10 : Env :=
  {| NOTARE_HZ := Some "10"; NOTARE_HANDLES := None; NOTARE_GC := None |}.

(** What [new Monitor ()] builds when line 190 reads the clock at 0 and
    the first sample is taken at second 1. *)
Definition monitor : Monitor.t :=
  (Monitor.new (node no_env) (Monitor.ArgValue VUndefined) 0 (at_second 1)).2.

(** Timer ticks at the seconds [from], [from + 1], ... *)
Definition ticks_from (from : Z) (n : nat) : list Monitor.input :=
  (fun k => Monitor.TimerFires (at_second (from + Z.of_nat k))) <$> seq 0 n.

(** A process started with [NOTARE_HANDLES=1 NOTARE_GC=1], and the monitor
    [new Monitor ({})] builds in it. *)
Definition tracking : Env :=
  {| NOTARE_HZ := None; NOTARE_HANDLES := Some "1"; NOTARE_GC := Some "1" |}.

Definition tracked : Monitor.t :=
  (Monitor.new (node tracking) (Monitor.ArgObject Monitor.no_options) 0
     (at_second 1)).2.

(** The options [{ handles: undefined }]. *)
Definition handles_undefined : Monitor.MonitorOptions :=
  {| Monitor.hz := None; Monitor.handles := Some VUndefined;
     Monitor.gc := None |}.

Definition untracked : Monitor.t :=
  (Monitor.new (node tracking) (Monitor.ArgObject handles_undefined) 0
     (at_second 1)).2.

(** What is left of [new Monitor ()] under [NOTARE_HZ=2000]. *)
Definition failed : Monitor.t :=
  (Monitor.new (node hz_2000) (Monitor.ArgValue VUndefined) 0 (at_second 1)).2.

End Fixture.

(** * Properties *)

(** ** Insertion-ordered maps *)

Module JsMapFacts.
Section JsMapFacts.
Context {K V : Type} `{EqDecision K}.
Implicit Types (k : K) (v : V) (m : JsMap.t K V).

Lemma get_None k m : JsMap.get k m = None <-> k ∉ JsMap.keys m.
Proof.
  induction m as [|[k' v'] m IH]; simpl.
  - split; [intros _; apply not_elem_of_nil | done].
  - rewrite not_elem_of_cons. destruct (decide (k = k')); [|tauto].
    split; [done | tauto].
Qed.

Lemma get_elem_of k v m :
  JsMap.wf m -> JsMap.get k m = Some v <-> (k, v) ∈ m.
Proof.
  unfold JsMap.wf, JsMap.keys.
  induction m as [|[k' v'] m IH]; simpl; intros Hwf.
  - split; [done | intros Hin; inversion Hin].
  - apply NoDup_cons in Hwf as [Hk' Hwf]. rewrite elem_of_cons.
    destruct (decide (k = k')) as [->|Hne].
    + split; [intros [= ->]; by left |].
      intros [[= ->]|Hin]; [done |].
      destruct Hk'. change k' with (k', v).1. by apply list_elem_of_fmap_2.
    + rewrite (IH Hwf). split; [tauto |]. intros [[= ? ?]|?]; [done | tauto].
Qed.

Lemma keys_set k v m :
  JsMap.keys (JsMap.set k v m) =
  if bool_decide (k ∈ JsMap.keys m) then JsMap.keys m
  else JsMap.keys m ++ [k].
Proof.
  unfold JsMap.keys. induction m as [|[k' v'] m IH]; csimpl.
  - done.
  - destruct (decide (k = k')) as [->|Hne]; csimpl.
    + clear IH. rewrite bool_decide_eq_true_2; [done | by left].
    + rewrite IH. do 2 case_bool_decide; try done.
      all: rewrite elem_of_cons in *; tauto.
Qed.

Lemma wf_set k v m : JsMap.wf m -> JsMap.wf (JsMap.set k v m).
Proof.
  unfold JsMap.wf. rewrite keys_set. intros Hwf.
  case_bool_decide as Hin; [done |].
  apply NoDup_app. split_and!; [done | | apply NoDup_singleton].
  intros x Hx ->%list_elem_of_singleton. done.
Qed.

Lemma keys_delete_subseteq k m :
  JsMap.keys (JsMap.delete k m) ⊆ JsMap.keys m.
Proof.
  unfold JsMap.keys. induction m as [|[k' v'] m IH]; simpl; [done |].
  destruct (decide (k = k')); simpl.
  - by apply list_subseteq_cons.
  - intros x. rewrite !elem_of_cons. intros [->|Hx]; [by left |].
    right. by apply IH.
Qed.

Lemma wf_delete k m : JsMap.wf m -> JsMap.wf (JsMap.delete k m).
Proof.
  unfold JsMap.wf, JsMap.keys.
  induction m as [|[k' v'] m IH]; simpl; [done |].
  intros [Hk' Hwf]%NoDup_cons. destruct (decide (k = k')); simpl; [done |].
  apply NoDup_cons. split; [| by apply IH].
  intros Hin. apply Hk'. by apply (keys_delete_subseteq k m).
Qed.

Lemma get_set k k' v m :
  JsMap.get k' (JsMap.set k v m) =
  if decide (k' = k) then Some v else JsMap.get k' m.
Proof.
  induction m as [|[k0 v0] m IH]; simpl.
  - done.
  - destruct (decide (k = k0)) as [->|Hne]; simpl.
    + destruct (decide (k' = k0)); done.
    + rewrite IH. destruct (decide (k' = k0)) as [->|]; [|done].
      by rewrite decide_False.
Qed.

Lemma get_delete k k' m :
  JsMap.wf m ->
  JsMap.get k' (JsMap.delete k m) =
  if decide (k' = k) then None else JsMap.get k' m.
Proof.
  unfold JsMap.wf, JsMap.keys.
  induction m as [|[k0 v0] m IH]; simpl; intros Hwf.
  - by destruct (decide (k' = k)).
  - apply NoDup_cons in Hwf as [Hk0 Hwf].
    destruct (decide (k = k0)) as [->|Hne]; simpl.
    + destruct (decide (k' = k0)) as [->|]; [|done].
      by apply get_None.
    + rewrite (IH Hwf). destruct (decide (k' = k0)) as [->|]; [|done].
      by rewrite decide_False.
Qed.

Lemma delete_absent k m : JsMap.get k m = None -> JsMap.delete k m = m.
Proof.
  induction m as [|[k0 v0] m IH]; simpl; [done |].
  destruct (decide (k = k0)); [done |]. intros Hm. by rewrite IH.
Qed.

End JsMapFacts.
End JsMapFacts.

(** ** HandleTracker *)

Module HandleTrackerFacts.
Import JS HandleTracker.

Lemma counts_visit_reported obj entry :
  length (titles obj) = length (data obj) ->
  length (titles (counts_visit obj entry)) =
    length (data (counts_visit obj entry)) /\
  entries (counts_visit obj entry) =
    entries obj ++ from_option (fun e => [e]) [] (reported entry).
Proof.
  intros Hlen. destruct entry as [key value].
  unfold counts_visit, reported, entries; simpl.
  destruct (count_gt0 _); simpl.
  - split; [rewrite !length_app; simpl; lia |].
    by rewrite zip_with_app.
  - by rewrite app_nil_r.
Qed.

Lemma fold_counts_visit m obj :
  length (titles obj) = length (data obj) ->
  entries (fold_left counts_visit m obj) = entries obj ++ omap reported m.
Proof.
  revert obj. induction m as [|entry m IH]; simpl; intros obj Hlen.
  - by rewrite app_nil_r.
  - destruct (counts_visit_reported obj entry Hlen) as [Hlen' Hent].
    rewrite (IH _ Hlen'), Hent, <- app_assoc. f_equal.
    by destruct (reported entry).
Qed.

(** The snapshot holds, in the order of [#counts], what each entry
    contributes. *)
Lemma entries_counts self :
  entries (counts self) = omap reported (counts_ self).
Proof. unfold counts. by rewrite fold_counts_visit. Qed.

Lemma reported_positive entry key value :
  reported entry = Some (key, value) -> exists z, value = Int z /\ 0 < z.
Proof.
  unfold reported. destruct (count_gt0 _) eqn:Hgt; [|done].
  intros [= _ <-]. destruct (if reserved entry.1 then _ else _) as [z|];
    simpl in Hgt; [|done].
  exists z. split; [done |]. by apply bool_decide_eq_true_1 in Hgt.
Qed.

(** *** The maps of a tracker stay well formed *)

Lemma wf_hook_init id type self :
  JsMap.wf (counts_ self) -> JsMap.wf (counts_ (hook_init id type self)).
Proof.
  intros Hwf. unfold hook_init; simpl.
  destruct (negb _); by apply JsMapFacts.wf_set.
Qed.

Lemma wf_hook_destroy id self :
  JsMap.wf (counts_ self) -> JsMap.wf (counts_ (hook_destroy id self)).
Proof.
  intros Hwf. unfold hook_destroy.
  destruct (types_ self !! id) as [type|]; simpl; [|done].
  destruct (match JsMap.get type _ with Some c => count_is0 c | None => false end).
  - by apply JsMapFacts.wf_delete, JsMapFacts.wf_set.
  - by apply JsMapFacts.wf_set.
Qed.

Lemma wf_deliver self e :
  JsMap.wf (counts_ self) -> JsMap.wf (counts_ (deliver self e)).
Proof.
  intros Hwf. unfold deliver. destruct (hook_enabled self); [|done].
  destruct e; [by apply wf_hook_init | by apply wf_hook_destroy].
Qed.

Lemma wf_run es self :
  JsMap.wf (counts_ self) -> JsMap.wf (counts_ (run es self)).
Proof.
  revert self. induction es as [|e es IH]; simpl; intros self Hwf; [done |].
  by apply IH, wf_deliver.
Qed.

Lemma wf_new : JsMap.wf (counts_ new).
Proof. apply NoDup_nil_2. Qed.

(** *** Raw counts are positive integers *)

Lemma live_insert_same id type m :
  (live type (<[id := type]> m) <= S (live type m))%nat.
Proof.
  unfold live. rewrite map_filter_insert_True by done.
  rewrite map_size_insert. destruct (_ !! id); simpl; lia.
Qed.

Lemma live_insert_other id type s m :
  s <> type -> (live s (<[id := type]> m) <= live s m)%nat.
Proof.
  intros Hne. unfold live.
  rewrite map_filter_insert_False by (simpl; congruence).
  rewrite map_filter_delete, map_size_delete. destruct (_ !! id); simpl; lia.
Qed.

Lemma live_delete_same id type m :
  m !! id = Some type -> S (live type (delete id m)) = live type m.
Proof.
  intros Hid. unfold live. rewrite map_filter_delete, map_size_delete.
  assert (Hf : filter (fun p : Z * string => p.2 = type) m !! id = Some type)
    by by apply map_lookup_filter_Some.
  rewrite Hf. simpl.
  assert (size (filter (fun p : Z * string => p.2 = type) m) <> 0%nat); [|lia].
  apply map_size_non_empty_iff. intros Hempty.
  by rewrite Hempty, lookup_empty in Hf.
Qed.

Lemma live_delete_le id s m : (live s (delete id m) <= live s m)%nat.
Proof.
  unfold live. rewrite map_filter_delete, map_size_delete.
  destruct (_ !! id); simpl; lia.
Qed.

Lemma invariant_new : invariant new.
Proof.
  split; [apply wf_new |]. intros type. unfold count_ok, live; simpl.
  by rewrite map_filter_empty, map_size_empty.
Qed.

Lemma invariant_hook_init id type self :
  invariant self -> invariant (hook_init id type self).
Proof.
  intros [Hwf Hok]. split; [by apply wf_hook_init |].
  intros s. specialize (Hok s). unfold count_ok in *.
  unfold hook_init, JsMap.has; simpl.
  destruct (decide (s = type)) as [->|Hne].
  - pose proof (live_insert_same id type (types_ self)) as Hlive.
    destruct (JsMap.get type (counts_ self)) as [[c|]|] eqn:Hget; simpl;
      rewrite JsMapFacts.get_set, decide_True by done; simpl;
      [lia | done | lia].
  - pose proof (live_insert_other id type s (types_ self) Hne) as Hlive.
    assert (Hsame : forall v,
      JsMap.get s (JsMap.set type v (counts_ self)) = JsMap.get s (counts_ self))
      by (intros v; by rewrite JsMapFacts.get_set, decide_False).
    destruct (negb _); rewrite Hsame;
      destruct (JsMap.get s (counts_ self)) as [[c|]|]; try done; lia.
Qed.

Lemma invariant_hook_destroy id self :
  invariant self -> invariant (hook_destroy id self).
Proof.
  intros [Hwf Hok]. split; [by apply wf_hook_destroy |].
  intros s. unfold count_ok, hook_destroy.
  destruct (types_ self !! id) as [type|] eqn:Hid; simpl.
  2: { rewrite delete_id by done. apply Hok. }
  pose proof (Hok type) as Htype. unfold count_ok in Htype.
  pose proof (live_delete_same id type (types_ self) Hid) as Hlive.
  rewrite JsMapFacts.get_set, decide_True by done.
  destruct (JsMap.get type (counts_ self)) as [[c|]|]; [|done|lia].
  simpl. destruct (decide (s = type)) as [->|Hne].
  - case_bool_decide as Hc.
    + rewrite JsMapFacts.get_delete, decide_True
        by (done || by apply JsMapFacts.wf_set). lia.
    + rewrite JsMapFacts.get_set, decide_True by done. lia.
  - pose proof (live_delete_le id s (types_ self)) as Hle.
    specialize (Hok s). unfold count_ok in Hok.
    assert (Hsame : JsMap.get s
      (if bool_decide (c - 1 = 0)
       then JsMap.delete type (JsMap.set type (Int (c - 1)) (counts_ self))
       else JsMap.set type (Int (c - 1)) (counts_ self))
      = JsMap.get s (counts_ self)).
    { case_bool_decide.
      - rewrite JsMapFacts.get_delete, decide_False
          by (done || by apply JsMapFacts.wf_set).
        by rewrite JsMapFacts.get_set, decide_False.
      - by rewrite JsMapFacts.get_set, decide_False. }
    rewrite Hsame.
    destruct (JsMap.get s (counts_ self)) as [[c'|]|]; try done; lia.
Qed.

Lemma invariant_deliver self e : invariant self -> invariant (deliver self e).
Proof.
  intros Hinv. unfold deliver. destruct (hook_enabled self); [|done].
  destruct e; [by apply invariant_hook_init | by apply invariant_hook_destroy].
Qed.

Lemma invariant_run es self : invariant self -> invariant (run es self).
Proof.
  revert self. induction es as [|e es IH]; simpl; intros self Hinv; [done |].
  by apply IH, invariant_deliver.
Qed.

(** *** Reading a snapshot *)

Lemma length_counts_visit obj entry :
  length (titles obj) = length (data obj) ->
  length (titles (counts_visit obj entry)) =
    length (data (counts_visit obj entry)).
Proof. intros Hlen. by apply counts_visit_reported. Qed.

Lemma length_counts self :
  length (titles (counts self)) = length (data (counts self)).
Proof.
  unfold counts.
  assert (Hgen : forall m obj, length (titles obj) = length (data obj) ->
    length (titles (fold_left counts_visit m obj)) =
    length (data (fold_left counts_visit m obj))).
  { induction m as [|e m IH]; simpl; intros obj Hlen; [done |].
    by apply IH, length_counts_visit. }
  by apply Hgen.
Qed.

Lemma titles_entries self : titles (counts self) = (entries (counts self)).*1.
Proof.
  unfold entries. rewrite fst_zip; [done |]. by rewrite length_counts.
Qed.

Lemma data_entries self : data (counts self) = (entries (counts self)).*2.
Proof.
  unfold entries. rewrite snd_zip; [done |]. by rewrite length_counts.
Qed.

Lemma reported_Some entry key value :
  reported entry = Some (key, value) <->
  entry.1 = key /\
  value = (if reserved key then count_sub1 entry.2 else entry.2) /\
  count_gt0 value = true.
Proof.
  unfold reported. split.
  - destruct (count_gt0 _) eqn:Hgt; [|done]. by intros [= <- <-].
  - intros (<- & -> & ->). done.
Qed.

Lemma elem_of_entries self key value :
  JsMap.wf (counts_ self) ->
  (key, value) ∈ entries (counts self) <->
  exists raw, JsMap.get key (counts_ self) = Some raw /\
              reported (key, raw) = Some (key, value).
Proof.
  intros Hwf. rewrite entries_counts, list_elem_of_omap. split.
  - intros ([k raw] & Hin & Hrep).
    pose proof Hrep as (Hk & _)%reported_Some. simpl in Hk. subst k.
    exists raw. split; [by apply JsMapFacts.get_elem_of | done].
  - intros (raw & Hget & Hrep). exists (key, raw).
    split; [by apply JsMapFacts.get_elem_of | done].
Qed.

Lemma not_elem_of_titles self key :
  JsMap.wf (counts_ self) ->
  key ∉ titles (counts self) <->
  forall raw, JsMap.get key (counts_ self) = Some raw ->
              reported (key, raw) = None.
Proof.
  intros Hwf. rewrite titles_entries, list_elem_of_fmap. split.
  - intros Hnot raw Hget.
    destruct (reported (key, raw)) as [[k v]|] eqn:Hrep; [|done].
    pose proof Hrep as (Hk & _)%reported_Some. simpl in Hk. subst k.
    destruct Hnot. exists (key, v). split; [done |].
    apply elem_of_entries; eauto.
  - intros Hnone ([k v] & Hk & Hin). simpl in Hk. subst k.
    apply elem_of_entries in Hin as (raw & Hget & Hrep); [|done].
    by rewrite (Hnone _ Hget) in Hrep.
Qed.

(** C9. For every sequence of creation and destruction events, the
    snapshot is a pair of arrays of equal length, and every count in it
    is a strictly positive integer. *)
Theorem snapshot_counts_positive (es : list event) :
  let snapshot := counts (run es new) in
  length (titles snapshot) = length (data snapshot) /\
  Forall (fun value => exists z, value = Int z /\ 0 < z) (data snapshot).
Proof.
  simpl. split; [apply length_counts |].
  rewrite data_entries, entries_counts. apply Forall_forall.
  intros value ([key v] & -> & Hin)%list_elem_of_fmap.
  apply list_elem_of_omap in Hin as (entry & _ & Hrep).
  by apply reported_positive in Hrep.
Qed.

(** C5. After any sequence of events, take a reserved type ("UDPWRAP",
    "Timeout" or "ELDHISTOGRAM") with raw count [raw] in [#counts].  Then
    [raw - 1] is not negative; when it is zero the snapshot has no entry
    for the type; otherwise the snapshot reports the type with exactly
    [raw - 1].  A reserved type without a raw count is not reported. *)
Theorem reserved_reported_one_less (es : list event) (key : string) :
  reserved key = true ->
  let self := run es new in
  match JsMap.get key (counts_ self) with
  | Some (Int raw) =>
      0 <= raw - 1 /\
      if decide (raw - 1 = 0)
      then key ∉ titles (counts self)
      else forall value,
             (key, value) ∈ entries (counts self) <-> value = Int (raw - 1)
  | Some NotANumber => False
  | None => key ∉ titles (counts self)
  end.
Proof.
  intros Hres. simpl.
  destruct (invariant_run es new invariant_new) as [Hwf Hok].
  specialize (Hok key). unfold count_ok in Hok.
  destruct (JsMap.get key (counts_ (run es new))) as [[raw|]|] eqn:Hget;
    [| done |].
  - split; [lia |]. destruct (decide (raw - 1 = 0)) as [H0|Hpos].
    + apply not_elem_of_titles; [done |]. intros raw' Hget'.
      rewrite Hget in Hget'. injection Hget' as <-.
      unfold reported; simpl. rewrite Hres; simpl.
      by rewrite bool_decide_eq_false_2 by lia.
    + intros value. rewrite elem_of_entries by done. split.
      * intros (raw' & Hget' & Hrep). rewrite Hget in Hget'.
        injection Hget' as <-. apply reported_Some in Hrep as (_ & -> & _).
        by rewrite Hres.
      * intros ->. exists (Int raw). split; [done |].
        unfold reported; simpl. rewrite Hres; simpl.
        by rewrite bool_decide_eq_true_2 by lia.
  - apply not_elem_of_titles; [done |]. intros raw Hget'.
    by rewrite Hget in Hget'.
Qed.

(** C8. On a fresh tracker, [init (id, type)] for a type that is not
    reserved gives the snapshot with the single entry [type: 1]; a
    following [destroy (id)] gives the empty snapshot; and [destroy] of an
    identifier that is not registered returns the tracker unchanged. *)
Theorem create_destroy_snapshots :
  (forall id type, reserved type = false ->
     counts (hook_init id type new) =
     {| titles := [type]; data := [Int 1] |}) /\
  (forall id type,
     counts (hook_destroy id (hook_init id type new)) =
     {| titles := []; data := [] |}) /\
  (forall self id, types_ self !! id = None -> hook_destroy id self = self).
Proof.
  split_and!.
  - intros id type Hres. unfold counts, hook_init; simpl.
    by rewrite Hres.
  - intros id type. unfold hook_destroy, hook_init; simpl.
    rewrite lookup_insert_eq. simpl.
    repeat (rewrite decide_True by done; simpl). reflexivity.
  - intros [types counts enabled] id Hid. unfold hook_destroy; simpl in *.
    rewrite Hid. by rewrite delete_id.
Qed.

End HandleTrackerFacts.

(** ** Monitor *)

Module MonitorFacts.
Import JS Node Monitor.

#[local] Arguments delay_of : simpl never.
#[local] Arguments spread : simpl never.
#[local] Arguments kDefaultMonitorOptions : simpl never.
#[local] Arguments truthy : simpl never.
#[local] Arguments lt : simpl never.
#[local] Arguments gt : simpl never.
#[local] Arguments div : simpl never.
#[local] Arguments Math_floor : simpl never.
#[local] Arguments Readable.push : simpl never.

(** Unfolds the monad and the field updates, nothing else. *)
Ltac exec :=
  cbv beta iota zeta delta
    [mbind M_bind mret M_ret when throw modify call deref get
     set_stream set_options set_timer set_elmonitor set_lastTS
     set_lastCPUUsage set_handles set_gc add_call
     stream options_ timer_ elmonitor_ lastTS_ lastCPUUsage_ handles_ gc_
     calls fst snd].

Lemma cpupct_run r this ts :
  lastTS_ this = Some ts ->
  _cpupct r this =
  (inr (div (div (of_Z (user (cpuUsage r (lastCPUUsage_ this)) +
                        system (cpuUsage r (lastCPUUsage_ this)))) _1e6)
            (div (of_Z (hrtime_bigint r - ts)) _1e6)),
   set_lastTS (Some (hrtime_bigint r))
     (set_lastCPUUsage (Some (cpuUsage r (lastCPUUsage_ this))) this)).
Proof.
  intros Hts. destruct this; simpl in Hts; subst.
  unfold _cpupct. by exec.
Qed.

(** One run of [_sample]: a sample is assembled from the readings and
    the trackers and pushed; the clock fields move on; the timer, the
    trackers and the options stay as they are. *)
Lemma sample_run P r this ts :
  lastTS_ this = Some ts ->
  exists s,
    _sample P r this =
    (inr tt,
     add_call (Push (Some s))
       (set_stream (Readable.push (Some s) (stream this)).2
          (set_lastTS (Some (hrtime_bigint r))
             (set_lastCPUUsage (Some (cpuUsage r (lastCPUUsage_ this)))
                this)))) /\
    Common.cpu s =
      div (div (of_Z (user (cpuUsage r (lastCPUUsage_ this)) +
                      system (cpuUsage r (lastCPUUsage_ this)))) _1e6)
          (div (of_Z (hrtime_bigint r - ts)) _1e6) /\
    Common.handles s = HandleTracker.counts <$> handles_ this /\
    Common.gc s = GCTracker.sample P <$> gc_ this /\
    Common.eventLoop s = (fun _ => Common.summary (eld r)) <$> elmonitor_ this.
Proof.
  intros Hts. unfold _sample.
  destruct (eventLoopUtilization r) as [util|].
  all: cbv beta iota zeta delta [mbind M_bind];
    rewrite (cpupct_run r this ts Hts).
  all: destruct this as [st op tm el lts lcu [h|] [g|] cs]; simpl in Hts; subst.
  all: destruct el as [el|].
  all: unfold push; exec.
  all: match goal with |- context [Readable.push ?c ?s] =>
         destruct (Readable.push c s) eqn:Hpush end.
  all: eexists; split_and!; [rewrite Hpush; simpl; reflexivity | reflexivity ..].
Qed.

(** *** The constructor *)

Lemma validate_pure P a this :
  validate P a this = ((validate P a super).1, this).
Proof.
  unfold validate. exec.
  repeat (match goal with
          | |- context [if ?b then _ else _] => destruct b
          end; try reflexivity).
Qed.

(** What [start] does to the fresh object, whatever the options. *)
Lemma start_run P o t0 r0 :
  let o' := spread (kDefaultMonitorOptions P) o in
  let d := delay_of P o' in
  exists s rest,
    let '(result, this) := start P o t0 r0 super in
    calls this = Push (Some s) :: SetInterval d :: rest /\
    Readable.buffer (stream this) = [s] /\
    Readable.ended (stream this) = false /\
    options_ this = Some o' /\
    lastTS_ this = Some (hrtime_bigint r0) /\
    delay <$> timer_ this = Some d /\
    match monitorEventLoopDelay P with
    | Some create =>
        match create d with
        | Some e =>
            result = inl e /\ rest = [MonitorEventLoopDelay d] /\
            elmonitor_ this = None /\ handles_ this = None /\
            gc_ this = None
        | None =>
            result = inr tt /\
            elmonitor_ this = Some {| resolution := d; enabled := true |} /\
            exists rest',
              rest = MonitorEventLoopDelay d :: EldEnable :: TimerUnref :: rest' /\
              Forall (fun c => c = HookEnable \/ c = Observe) rest'
        end
    | None =>
        result = inr tt /\ elmonitor_ this = None /\
        exists rest',
          rest = TimerUnref :: rest' /\
          Forall (fun c => c = HookEnable \/ c = Observe) rest'
    end /\
    (result = inr tt ->
     handles_ this =
       (if truthy (prop (handles o')) then Some HandleTracker.new else None) /\
     gc_ this =
       (if truthy (prop (gc o')) then Some GCTracker.new else None)).
Proof.
  intros o' d. unfold start.
  destruct (sample_run P r0
              (set_lastTS (Some t0) (set_options (Some o') super)) t0 eq_refl)
    as (s & Hs & _).
  exists s. revert Hs. subst d o'.
  cbv beta iota zeta delta
    [mbind M_bind modify deref call when throw mret M_ret super
     set_lastTS set_options set_lastCPUUsage set_stream set_timer
     set_elmonitor set_handles set_gc add_call
     stream options_ timer_ elmonitor_ lastTS_ lastCPUUsage_ handles_ gc_
     calls].
  intros ->.
  set (o' := spread (kDefaultMonitorOptions P) o). set (d := delay_of P o').
  destruct (monitorEventLoopDelay P) as [create|]; [destruct (create d)|].
  all: simpl.
  all: repeat (match goal with
               | |- context [truthy ?v] => destruct (truthy v)
               end; simpl).
  all: eexists; split_and!; try reflexivity; try done.
  all: eexists; split; [reflexivity |].
  all: repeat first [apply Forall_nil_2
                    | apply Forall_cons_2; [by (left + right) |]].
Qed.

Lemma new_run P a t0 r0 :
  Monitor.new P a t0 r0 =
  match (validate P a super).1 with
  | inl e => (inl e, super)
  | inr o => start P o t0 r0 super
  end.
Proof.
  unfold Monitor.new, constructor.
  cbv beta iota zeta delta [mbind M_bind]. rewrite validate_pure.
  by destruct (validate P a super).1.
Qed.

(** [new Monitor ()] is [new Monitor ({})]. *)
Lemma new_default P t0 r0 :
  Monitor.new P (ArgValue VUndefined) t0 r0 =
  Monitor.new P (ArgObject no_options) t0 r0.
Proof. reflexivity. Qed.

Lemma out_of_range_check n :
  lt n (Fin 1) || gt n (Fin 1000) = true <-> out_of_range n.
Proof.
  unfold gt, lt. destruct n as [|[]|q]; simpl; try done.
  destruct (Qlt_le_dec q 1) as [H1|H1], (Qlt_le_dec 1000 q) as [H2|H2];
    simpl; try tauto.
  split; [done |]. intros [H|H].
  - by apply Qlt_not_le in H.
  - by apply Qlt_not_le in H.
Qed.

Lemma validate_rejects_rate P o n :
  hz o = Some (VNumber n) -> out_of_range n ->
  (validate P (ArgObject o) super).1 =
  inl (RangeError "options.hz must be a number between 1 and 1000").
Proof.
  intros Hhz Hout%out_of_range_check. unfold validate. exec. simpl.
  rewrite Hhz. simpl. by rewrite Hout.
Qed.

Lemma validate_accepts P o :
  (JS.prop (hz o) = VUndefined \/
   exists n, JS.prop (hz o) = VNumber n /\ ~ out_of_range n) ->
  boolean_or_undefined (JS.prop (handles o)) ->
  (validate P (ArgObject o) super).1 = inr o.
Proof.
  intros Hhz Hh. unfold validate. exec. simpl.
  assert (Hh' : negb (is_undefined (JS.prop (handles o))) &&
                negb (String.eqb (typeof (JS.prop (handles o))) "boolean")
                = false).
  { destruct Hh as [->|[b ->]]; reflexivity. }
  destruct Hhz as [->|(n & -> & Hn)]; simpl.
  - by rewrite Hh'.
  - rewrite <- out_of_range_check in Hn. apply not_true_is_false in Hn.
    rewrite Hn. by rewrite Hh'.
Qed.

(** *** The delay *)

Lemma floor_div_Z (a b : Z) :
  Math_floor (div (of_Z a) (of_Z b)) =
  if decide (b = 0)
  then (if decide (a = 0) then NaN else Infinity (bool_decide (a < 0)))
  else of_Z (a / b).
Proof.
  unfold Math_floor, div, of_Z, Qis_zero, Qsign_neg.
  assert (Hz : forall z, Qeq_bool (inject_Z z) 0 = bool_decide (z = 0)).
  { intros z. destruct (decide (z = 0)) as [->|Hz]; [reflexivity |].
    rewrite bool_decide_eq_false_2 by done. apply not_true_is_false.
    intros H%Qeq_bool_iff. unfold Qeq in H; simpl in H. lia. }
  rewrite !Hz. destruct (decide (b = 0)) as [->|Hb].
  - rewrite bool_decide_eq_true_2 by done.
    destruct (decide (a = 0)) as [->|Ha].
    + by rewrite bool_decide_eq_true_2.
    + rewrite bool_decide_eq_false_2 by done. f_equal.
      destruct (Qlt_le_dec (inject_Z a) 0) as [H|H]; unfold Qlt, Qle in H;
        simpl in H; rewrite Z.mul_1_r in H.
      * by rewrite bool_decide_eq_true_2.
      * rewrite bool_decide_eq_false_2; [done | lia].
  - rewrite bool_decide_eq_false_2 by done. by rewrite <- Zdiv_Qdiv.
Qed.

(** An integer is truthy unless it is zero. *)
Lemma integer_truthy (r : Z) : r <> 0 -> number_truthy (of_Z r) = true.
Proof.
  intros Hr. unfold number_truthy, of_Z, Qis_zero, Qeq_bool, inject_Z; simpl.
  rewrite Z.mul_1_r. apply negb_true_iff. by apply Z.eqb_neq.
Qed.

(** The rate the delay is computed from is the integer [r]: it is given
    in the options, or the options give none and line 39 has read it from
    [NOTARE_HZ]. *)
Lemma delay_of_integer_rate P o r :
  r <> 0 ->
  (hz o = Some (VNumber (of_Z r)) \/
   JS.prop (hz o) = VUndefined /\
   parseInt P (env_or (NOTARE_HZ (env P)) "0") = of_Z r) ->
  delay_of P (spread (kDefaultMonitorOptions P) o) = of_Z (1000 / r).
Proof.
  intros Hr Hrate. pose proof (integer_truthy r Hr) as Ht.
  assert (Hd : Math_floor (div (Fin 1000) (of_Z r)) = of_Z (1000 / r)).
  { change (Fin 1000) with (of_Z 1000). rewrite floor_div_Z.
    by rewrite decide_False. }
  rewrite <- Hd. unfold delay_of, spread, kDefaultMonitorOptions.
  destruct Hrate as [Hhz | [Hhz Hparse]].
  - rewrite Hhz. simpl. unfold JS.or, truthy. by rewrite Ht.
  - rewrite Hparse, Ht.
    destruct (hz o) as [v|]; simpl in Hhz; subst; simpl.
    + reflexivity.
    + unfold JS.or, truthy. by rewrite Ht.
Qed.

(** Without a rate in the options, the delay comes from [NOTARE_HZ]. *)
Lemma delay_of_env P o s n :
  hz o = None ->
  NOTARE_HZ (env P) = Some s -> s <> "" -> parseInt P s = of_Z n -> n <> 0 ->
  delay_of P (spread (kDefaultMonitorOptions P) o) = of_Z (1000 / n).
Proof.
  intros Hhz Henv Hs Hparse Hn.
  unfold delay_of, spread, kDefaultMonitorOptions. rewrite Hhz, Henv. simpl.
  rewrite bool_decide_eq_false_2 by done. rewrite Hparse.
  assert (Ht : number_truthy (of_Z n) = true).
  { unfold number_truthy, of_Z, Qis_zero, Qeq_bool, inject_Z; simpl.
    rewrite Z.mul_1_r. apply negb_true_iff. by apply Z.eqb_neq. }
  rewrite Ht. unfold JS.or, truthy. rewrite Ht. simpl.
  change (Fin 1000) with (of_Z 1000). rewrite floor_div_Z.
  by rewrite decide_False.
Qed.
(** *** Rejected and accepted options *)

(** C3 (amended). When the rate in the options is a number below 1 (zero
    and every negative number included) or above 1000, construction fails
    with the [RangeError] of line 182, and it fails before anything is
    done: the stream buffer is empty, no call into the runtime has been
    made, no timer is armed. *)
Theorem rate_out_of_range_rejected P o n t0 r0 :
  hz o = Some (VNumber n) -> out_of_range n ->
  let '(result, this) := Monitor.new P (ArgObject o) t0 r0 in
  result = inl (RangeError "options.hz must be a number between 1 and 1000") /\
  Readable.buffer (stream this) = [] /\
  calls this = [] /\
  timer_ this = None.
Proof.
  intros Hhz Hout. rewrite new_run, (validate_rejects_rate P o n Hhz Hout).
  done.
Qed.

(** The flag [handles] is checked: anything but a boolean or [undefined]
    is refused (lines 185-187). *)
Lemma handles_flag_validated P o t0 r0 :
  JS.prop (hz o) = VUndefined ->
  ~ boolean_or_undefined (JS.prop (handles o)) ->
  Monitor.new P (ArgObject o) t0 r0 =
  (inl (TypeError "options.handles must be a boolean"), super).
Proof.
  intros Hhz Hh. rewrite new_run.
  assert ((validate P (ArgObject o) super).1 =
          inl (TypeError "options.handles must be a boolean")) as ->; [|done].
  unfold validate. exec. simpl. rewrite Hhz. simpl.
  destruct (JS.prop (handles o)) as [| |b| | |]; try reflexivity.
  - destruct Hh. by left.
  - destruct Hh. right. by exists b.
Qed.

(** The flag [gc] is not: the checks accept any value for it. *)
Lemma gc_flag_accepted P v :
  (validate P (ArgObject {| hz := None; handles := None; gc := Some v |})
     super).1 =
  inr {| hz := None; handles := None; gc := Some v |}.
Proof. apply validate_accepts; by left. Qed.

(** C4. With [{ gc: 'yes' }] construction succeeds, and because the
    string is truthy a [GCTracker] is started. *)
Theorem gc_flag_not_validated :
  let options :=
    ArgObject {| hz := None; handles := None; gc := Some (VString "yes") |} in
  let '(result, this) :=
    Monitor.new (Fixture.node Fixture.no_env) options 0 (Fixture.at_second 1) in
  result = inr tt /\ gc_ this = Some GCTracker.new /\
  last (calls this) = Some Observe.
Proof. vm_compute. done. Qed.

(** *** The interval *)

(** C6. For every integer rate [r] between 1 and 1000, whether it is
    given in otherwise valid options or, the options giving none, read
    from [NOTARE_HZ], the timer is armed with [floor (1000 / r)]; where
    the runtime has [monitorEventLoopDelay] it is called with that same
    value as resolution right after, and unless that call throws,
    construction succeeds with the delay monitor enabled at that
    resolution. *)
Theorem tick_interval P o r t0 r0 :
  1 <= r <= 1000 ->
  (hz o = Some (VNumber (of_Z r)) \/
   JS.prop (hz o) = VUndefined /\
   parseInt P (env_or (NOTARE_HZ (env P)) "0") = of_Z r) ->
  boolean_or_undefined (JS.prop (handles o)) ->
  let d := of_Z (1000 / r) in
  let '(result, this) := Monitor.new P (ArgObject o) t0 r0 in
  delay <$> timer_ this = Some d /\
  match monitorEventLoopDelay P with
  | Some create =>
      (exists s rest,
         calls this =
         Push (Some s) :: SetInterval d :: MonitorEventLoopDelay d :: rest) /\
      (create d = None ->
       result = inr tt /\
       elmonitor_ this = Some {| resolution := d; enabled := true |})
  | None =>
      (exists s rest, calls this = Push (Some s) :: SetInterval d :: rest) /\
      result = inr tt /\ elmonitor_ this = None
  end.
Proof.
  intros Hr Hrate Hh d. rewrite new_run, validate_accepts; [|  | done].
  2: { destruct Hrate as [Hhz | [Hhz _]]; [right | by left].
       exists (of_Z r). rewrite Hhz. split; [done |].
       unfold out_of_range, of_Z.
       intros [H|H]; apply Qlt_not_le in H; apply H.
       - change 1%Q with (inject_Z 1). rewrite <- Zle_Qle. lia.
       - change 1000%Q with (inject_Z 1000). rewrite <- Zle_Qle. lia. }
  destruct (start_run P o t0 r0) as (s & rest & Hrun).
  rewrite (delay_of_integer_rate P o r) in Hrun by (lia || done).
  fold d in Hrun.
  destruct (start P o t0 r0 super) as [result this].
  destruct Hrun as (Hcalls & _ & _ & _ & _ & Htimer & Held & _).
  split; [done |].
  destruct (monitorEventLoopDelay P) as [create|].
  - destruct (create d) as [e|].
    + destruct Held as (_ & -> & _). split; [by eauto | done].
    + destruct Held as (-> & Hel & rest' & -> & _). by eauto.
  - destruct Held as (-> & Hel & rest' & -> & _). by eauto.
Qed.

(** For an integer rate the floor of the exact quotient is the integer
    quotient. *)
Lemma floor_integer_rate (r : Z) : Qfloor (1000 / inject_Z r) = 1000 / r.
Proof. symmetry. apply (Zdiv_Qdiv 1000 r). Qed.

Lemma Qfloor_unique (x : Q) (k : Z) :
  (inject_Z k <= x)%Q -> (x < inject_Z (k + 1))%Q -> Qfloor x = k.
Proof.
  intros Hlo Hhi.
  pose proof (Qfloor_le x) as H1. pose proof (Qlt_floor x) as H2.
  assert (k < Qfloor x + 1).
  { rewrite Zlt_Qlt. eapply Qle_lt_trans; [exact Hlo | exact H2]. }
  assert (Qfloor x < k + 1).
  { rewrite Zlt_Qlt. eapply Qle_lt_trans; [exact H1 | exact Hhi]. }
  lia.
Qed.

(** At an integer rate that floor does not depend on how the division
    rounds.  The quotient of doubles is the double nearest [1000 / r]: it
    is [1000 / r] itself when [r] divides 1000, and it is off by less than
    [1000 * 2 ^ -53] otherwise.  Any [x] that close, and much farther,
    has the same floor, because [1000 / r] is at least [1 / 1000] away
    from the next integer.  At other rates this fails (the double nearest
    [1000 / 7] is a rate whose quotient rounds up to 7), which is why
    [tick_interval] is stated for integer rates. *)
Lemma floor_rounded_quotient (r : Z) (x : Q) :
  1 <= r <= 1000 ->
  (Qabs (x - 1000 / inject_Z r) <= 1 # 2000)%Q ->
  ((r | 1000) -> (x == 1000 / inject_Z r)%Q) ->
  Qfloor x = 1000 / r.
Proof.
  intros Hr Herr Hexact.
  pose proof (Z.div_mod 1000 r ltac:(lia)) as Hdm.
  pose proof (Z.mod_pos_bound 1000 r ltac:(lia)) as Hm.
  destruct (Z.eq_dec (1000 mod r) 0) as [H0|H0].
  - rewrite (Qfloor_comp x (1000 / inject_Z r)).
    + apply floor_integer_rate.
    + apply Hexact. apply Z.mod_divide; lia.
  - set (k := 1000 / r) in *. set (m := 1000 mod r) in *.
    apply Qabs_Qle_condition in Herr. destruct Herr as [Hlo Hhi].
    assert (Hpos : (0 < inject_Z r)%Q).
    { change 0%Q with (inject_Z 0). rewrite <- Zlt_Qlt. lia. }
    assert (Hk : (inject_Z k + (1 # 2000) <= 1000 / inject_Z r)%Q).
    { apply Qle_shift_div_l; [exact Hpos |].
      unfold Qle, Qplus, Qmult, inject_Z; simpl. nia. }
    assert (Hk' : (1000 / inject_Z r < inject_Z (k + 1) - (1 # 2000))%Q).
    { apply Qlt_shift_div_r; [exact Hpos |].
      unfold Qlt, Qminus, Qplus, Qmult, Qopp, inject_Z; simpl. nia. }
    rewrite inject_Z_plus in Hk'. change (inject_Z 1) with 1%Q in Hk'.
    set (y := (1000 / inject_Z r)%Q) in *.
    apply Qfloor_unique.
    + lra.
    + rewrite inject_Z_plus. change (inject_Z 1) with 1%Q. lra.
Qed.

(** The delay of an integer rate between 1 and 1000 is between 1 and
    1000. *)
Lemma delay_bounds (r : Z) : 1 <= r <= 1000 -> 1 <= 1000 / r <= 1000.
Proof.
  intros Hr. split.
  - apply Z.div_le_lower_bound; lia.
  - apply Z.div_le_upper_bound; lia.
Qed.

(** So [monitorEventLoopDelay], as Node.js documents it, accepts the
    delay of every such rate. *)
Lemma valid_delay_accepted (r : Z) :
  1 <= r <= 1000 ->
  Fixture.monitorEventLoopDelay (of_Z (1000 / r)) = None.
Proof.
  intros Hr%delay_bounds. set (z := 1000 / r) in *.
  unfold Fixture.monitorEventLoopDelay, Fixture.isSafeInteger, le, lt, of_Z.
  rewrite Qfloor_Z.
  destruct (Qlt_le_dec 0 (inject_Z z)) as [_|Hle].
  2: { change 0%Q with (inject_Z 0) in Hle. rewrite <- Zle_Qle in Hle. lia. }
  simpl. rewrite (proj2 (Qeq_bool_iff _ _)) by reflexivity.
  rewrite bool_decide_eq_true_2; [done |].
  assert (1000 < 2 ^ 53 - 1) by done. lia.
Qed.

(** C7. When construction succeeds, the first call into the runtime is
    the push of a sample, the second arms the timer, no later call of the
    constructor pushes, and that sample is what the stream holds. *)
Theorem first_sample_before_timer P a t0 r0 this :
  Monitor.new P a t0 r0 = (inr tt, this) ->
  exists sample d rest,
    calls this = Push (Some sample) :: SetInterval d :: rest /\
    Forall (fun c => is_push c = false) rest /\
    Readable.buffer (stream this) = [sample] /\
    delay <$> timer_ this = Some d.
Proof.
  rewrite new_run. destruct (validate P a super).1 as [e|o]; [done |].
  destruct (start_run P o t0 r0) as (s & rest & Hrun). intros Hnew.
  rewrite Hnew in Hrun.
  destruct Hrun as (Hcalls & Hbuf & _ & _ & _ & Htimer & Held & _).
  exists s, (delay_of P (spread (kDefaultMonitorOptions P) o)), rest.
  split_and!; try done.
  assert (Hrest : forall rest' : list Call,
            Forall (fun c => c = HookEnable \/ c = Observe) rest' ->
            Forall (fun c => is_push c = false) rest').
  { intros rest' H. eapply Forall_impl; [exact H |]. by intros c [->| ->]. }
  destruct (monitorEventLoopDelay P) as [create|].
  - destruct (create _) as [e|].
    + by destruct Held as (? & _).
    + destruct Held as (_ & _ & rest' & -> & Hr).
      repeat (apply Forall_cons_2; [done |]). by apply Hrest.
  - destruct Held as (_ & _ & rest' & -> & Hr).
    apply Forall_cons_2; [done |]. by apply Hrest.
Qed.

(** C10 (amended). Without a rate in the options, a value of
    [NOTARE_HZ] that parses to an integer above 1000 passes unchecked:
    the first sample is taken and the timer is armed with
    [floor (1000 / n) = 0].  Construction then succeeds exactly when the
    runtime has no [monitorEventLoopDelay] or the call with resolution 0
    returns; an error it throws is the result of the constructor. *)
Theorem env_rate_unchecked P o s n t0 r0 :
  hz o = None -> boolean_or_undefined (JS.prop (handles o)) ->
  NOTARE_HZ (env P) = Some s -> s <> "" -> parseInt P s = of_Z n ->
  1000 < n ->
  let '(result, this) := Monitor.new P (ArgObject o) t0 r0 in
  (exists sample rest,
     calls this = Push (Some sample) :: SetInterval (of_Z 0) :: rest) /\
  delay <$> timer_ this = Some (of_Z 0) /\
  match monitorEventLoopDelay P with
  | Some create =>
      match create (of_Z 0) with
      | Some e => result = inl e
      | None => result = inr tt
      end
  | None => result = inr tt
  end.
Proof.
  intros Hhz Hh Henv Hs Hparse Hn.
  rewrite new_run, validate_accepts; [| | done].
  2: { left. by rewrite Hhz. }
  destruct (start_run P o t0 r0) as (sample & rest & Hrun).
  rewrite (delay_of_env P o s n Hhz Henv Hs Hparse) in Hrun by lia.
  rewrite Z.div_small in Hrun by lia.
  destruct (start P o t0 r0 super) as [result this].
  destruct Hrun as (Hcalls & _ & _ & _ & _ & Htimer & Held & _).
  split_and!; [by eauto | done |].
  destruct (monitorEventLoopDelay P) as [create|].
  - destruct (create (of_Z 0)); by destruct Held as (? & _).
  - by destruct Held as (? & _).
Qed.

(** *** CPU utilization *)

Lemma Qis_zero_div_Z (z : Z) (k : positive) :
  z <> 0 -> Qis_zero (inject_Z z / (Z.pos k # 1)) = false.
Proof.
  intros Hz. unfold Qis_zero. apply not_true_is_false.
  intros H%Qeq_bool_iff. unfold Qeq, Qdiv, Qmult, Qinv, inject_Z in H.
  simpl in H. lia.
Qed.

(** C2. What [_cpupct] returns is the CPU time of the reading, in
    seconds, over the elapsed wall-clock time in milliseconds: one
    thousandth of the ratio of CPU seconds to wall-clock seconds. *)
Theorem cpupct_is_ratio_per_thousand r this ts :
  lastTS_ this = Some ts -> hrtime_bigint r <> ts ->
  let usage := cpuUsage r (lastCPUUsage_ this) in
  let cpu_seconds := (inject_Z (user usage + system usage) / 1000000)%Q in
  let wall_seconds := (inject_Z (hrtime_bigint r - ts) / 1000000000)%Q in
  exists q,
    (_cpupct r this).1 = inr (Fin q) /\
    (q * 1000 == cpu_seconds / wall_seconds)%Q.
Proof.
  intros Hts Hnow usage cpu_seconds wall_seconds.
  rewrite (cpupct_run r this ts Hts). fold usage. simpl.
  assert (Hd : hrtime_bigint r - ts <> 0) by lia.
  unfold div, of_Z, _1e6.
  change (Qis_zero (1000000 # 1)) with false. cbv beta iota.
  rewrite (Qis_zero_div_Z _ 1000000 Hd).
  eexists. split; [reflexivity |].
  subst cpu_seconds wall_seconds.
  assert (Hq : ~ (inject_Z (hrtime_bigint r - ts) == 0)%Q).
  { unfold Qeq, inject_Z. simpl. lia. }
  field. done.
Qed.

(** *** Ticks and the consumer *)

Lemma running_new P a t0 r0 this :
  Monitor.new P a t0 r0 = (inr tt, this) ->
  running this /\ length (Readable.buffer (stream this)) = 1%nat.
Proof.
  rewrite new_run. destruct (validate P a super).1 as [e|o]; [done |].
  destruct (start_run P o t0 r0) as (s & rest & Hrun). intros Hnew.
  rewrite Hnew in Hrun.
  destruct Hrun as (_ & Hbuf & Hended & _ & Hts & Htimer & _).
  split; [| by rewrite Hbuf].
  split_and!; [| by rewrite Hts | done].
  destruct (timer_ this); [by eexists | done].
Qed.

(** A tick of a running monitor: one sample joins the buffer, full or
    not, and the timer is not touched. *)
Lemma tick_run P r this :
  running this ->
  exists s this',
    tick P r this = (inr tt, this') /\
    Readable.buffer (stream this') = Readable.buffer (stream this) ++ [s] /\
    calls this' = calls this ++ [Push (Some s)] /\
    timer_ this' = timer_ this /\
    running this'.
Proof.
  intros ([tm Htm] & [ts Hts] & Hended).
  destruct (sample_run P r this ts Hts) as (s & Hs & _).
  exists s. eexists. unfold tick.
  cbv beta iota zeta delta [mbind M_bind get]. rewrite Htm, Hs.
  split; [reflexivity |].
  destruct this as [[buf ended hwm] op tmr el lts lcu h g cs].
  simpl in *. subst. simpl. split_and!; done.
Qed.

Lemma step_run P i this :
  is_destroyed i = false -> running this ->
  exists this',
    step P i this = (inr tt, this') /\
    timer_ this' = timer_ this /\
    running this'.
Proof.
  intros Hi Hrun. destruct i as [r| |e|entries|]; [| | | |done].
  - destruct (tick_run P r this Hrun) as (s & this' & Ht & _ & _ & Htm & Hr).
    by exists this'.
  - destruct this as [[buf ended hwm] op tmr el lts lcu h g cs].
    destruct buf as [|chunk buf]; eexists; (split; [reflexivity |]); done.
  - destruct this as [st op tmr el lts lcu h g cs].
    eexists; (split; [reflexivity |]); done.
  - destruct this as [st op tmr el lts lcu h g cs].
    eexists; (split; [reflexivity |]); done.
Qed.

Lemma steps_run P inputs this :
  Forall (fun i => is_destroyed i = false) inputs -> running this ->
  exists this',
    steps P inputs this = (inr tt, this') /\
    timer_ this' = timer_ this /\
    running this'.
Proof.
  intros Hin. revert this.
  induction Hin as [|i inputs Hi _ IH]; intros this Hrun.
  - by exists this.
  - destruct (step_run P i this Hi Hrun) as (this1 & Hstep & Htm & Hrun1).
    destruct (IH this1 Hrun1) as (this2 & Hsteps & Htm2 & Hrun2).
    exists this2. simpl. cbv beta iota zeta delta [mbind M_bind].
    rewrite Hstep, Hsteps. split_and!; [done | congruence | done].
Qed.

Lemma ticks_buffer P rs this :
  running this ->
  exists this',
    steps P (TimerFires <$> rs) this = (inr tt, this') /\
    length (Readable.buffer (stream this')) =
      (length (Readable.buffer (stream this)) + length rs)%nat.
Proof.
  revert this. induction rs as [|r rs IH]; intros this Hrun.
  - exists this. split; [done | simpl; lia].
  - destruct (tick_run P r this Hrun) as (s & this1 & Ht & Hbuf & _ & _ & Hr1).
    destruct (IH this1 Hr1) as (this2 & Hsteps & Hlen).
    exists this2. rewrite fmap_cons. cbn [steps step].
    cbv beta iota zeta delta [mbind M_bind].
    rewrite Ht, Hsteps. split; [done |].
    rewrite Hlen, Hbuf, length_app. simpl. lia.
Qed.

(** C1 (amended). After a successful construction and any inputs short
    of [destroy], the timer is still the one the constructor armed, and a
    tick appends one sample to the stream buffer whatever the buffer
    holds; with a consumer that never reads, [n] ticks leave [n + 1]
    samples buffered. *)
Theorem tick_pushes_regardless P a t0 r0 this0 :
  Monitor.new P a t0 r0 = (inr tt, this0) ->
  (forall inputs r,
     Forall (fun i => is_destroyed i = false) inputs ->
     let '(result, this) := steps P inputs this0 in
     let '(result', this') := tick P r this in
     result = inr tt /\ result' = inr tt /\
     is_Some (timer_ this) /\
     timer_ this = timer_ this0 /\ timer_ this' = timer_ this0 /\
     exists s,
       Readable.buffer (stream this') = Readable.buffer (stream this) ++ [s]) /\
  (forall rs,
     let '(result, this) := steps P (TimerFires <$> rs) this0 in
     result = inr tt /\
     length (Readable.buffer (stream this)) = S (length rs)).
Proof.
  intros Hnew. destruct (running_new _ _ _ _ _ Hnew) as [Hrun0 Hlen0]. split.
  - intros inputs r Hin.
    destruct (steps_run P inputs this0 Hin Hrun0) as (this & -> & Htm & Hrun).
    destruct (tick_run P r this Hrun) as (s & this' & -> & Hbuf & _ & Htm' & _).
    split_and!; try done; [by destruct Hrun | congruence | by eauto].
  - intros rs.
    destruct (ticks_buffer P rs this0 Hrun0) as (this & -> & Hlen).
    split; [done |]. by rewrite Hlen, Hlen0.
Qed.

End MonitorFacts.

(** * The properties on a concrete process *)

Module Examples.
Import JS Node Monitor Fixture.

(** ** HandleTracker *)

Lemma reserved_reported_one_less_witness :
  let es := [HandleTracker.Init 1 "Timeout"; HandleTracker.Init 2 "Timeout";
             HandleTracker.Init 3 "Timeout"; HandleTracker.Destroy 9] in
  let self := HandleTracker.run es HandleTracker.new in
  HandleTracker.reserved "Timeout" = true /\
  JsMap.get "Timeout" (HandleTracker.counts_ self) = Some (Int 3) /\
  forall value,
    ("Timeout", value) ∈ HandleTracker.entries (HandleTracker.counts self) <->
    value = Int 2.
Proof.
  intros es self. split; [reflexivity |]. split; [reflexivity |].
  pose proof (HandleTrackerFacts.reserved_reported_one_less es "Timeout"
                eq_refl) as H.
  exact (proj2 H).
Defined.

Lemma create_destroy_snapshots_witness :
  let created := HandleTracker.hook_init 1 "A" HandleTracker.new in
  let destroyed := HandleTracker.hook_destroy 1 created in
  HandleTracker.counts created =
    {| HandleTracker.titles := ["A"]; HandleTracker.data := [Int 1] |} /\
  HandleTracker.counts destroyed =
    {| HandleTracker.titles := []; HandleTracker.data := [] |} /\
  HandleTracker.hook_destroy 2 created = created /\
  HandleTracker.hook_destroy 1 destroyed = destroyed.
Proof.
  intros created destroyed.
  destruct HandleTrackerFacts.create_destroy_snapshots as (H1 & H2 & H3).
  split_and!.
  - apply H1. reflexivity.
  - apply H2.
  - apply H3. reflexivity.
  - apply H3. reflexivity.
Defined.

(** ** Monitor *)

Lemma monitor_constructed :
  Monitor.new (node no_env) (ArgValue VUndefined) 0 (at_second 1) =
  (inr tt, monitor).
Proof. vm_compute. reflexivity. Qed.

(** C1, as stated, fails: fifteen ticks after construction sixteen
    samples wait in the buffer, which is the high water mark, so the
    consumer has been told to stop; the timer is still armed, and the
    next tick buffers a seventeenth sample. *)
Lemma full_buffer_does_not_pause :
  let this := (steps (node no_env) (ticks_from 2 15) monitor).2 in
  Readable.full (stream this) = true /\
  is_Some (timer_ this) /\
  length (Readable.buffer (stream this)) = 16%nat /\
  length (Readable.buffer
            (stream (tick (node no_env) (at_second 17) this).2)) = 17%nat.
Proof. vm_compute. split_and!; try done. by eexists. Qed.

Lemma tick_pushes_regardless_witness :
  Monitor.new (node no_env) (ArgValue VUndefined) 0 (at_second 1) =
    (inr tt, monitor) /\
  (let '(result, this) := steps (node no_env) (ticks_from 2 15) monitor in
   let '(result', this') := tick (node no_env) (at_second 17) this in
   result' = inr tt /\ timer_ this' = timer_ monitor) /\
  (let '(result, this) := steps (node no_env) (TimerFires <$> [at_second 2; at_second 3]) monitor in
   length (Readable.buffer (stream this)) = 3%nat).
Proof.
  split; [exact monitor_constructed |].
  destruct (MonitorFacts.tick_pushes_regardless (node no_env)
              (ArgValue VUndefined) 0 (at_second 1) monitor
              monitor_constructed)
    as [Hany Hticks].
  split.
  - assert (Hin : Forall (fun i => is_destroyed i = false) (ticks_from 2 15)).
    { unfold ticks_from. apply Forall_fmap, Forall_true. done. }
    specialize (Hany (ticks_from 2 15) (at_second 17) Hin). revert Hany.
    destruct (steps _ _ _) as [result this].
    destruct (tick _ _ _) as [result' this']. tauto.
  - specialize (Hticks [at_second 2; at_second 3]). revert Hticks.
    destruct (steps _ _ _) as [result this]. tauto.
Defined.

Lemma cpupct_is_ratio_per_thousand_witness :
  lastTS_ monitor = Some 1000000000 /\
  hrtime_bigint (at_second 2) <> 1000000000 /\
  cpuUsage (at_second 2) (lastCPUUsage_ monitor) =
    {| user := 400000; system := 100000 |} /\
  exists q,
    (_cpupct (at_second 2) monitor).1 = inr (Fin q) /\
    (q * 1000 == 1 # 2)%Q.
Proof.
  assert (Hnow : hrtime_bigint (at_second 2) <> 1000000000) by by vm_compute.
  assert (Hts : lastTS_ monitor = Some 1000000000) by (vm_compute; reflexivity).
  split_and!; [exact Hts | exact Hnow | vm_compute; reflexivity |].
  destruct (MonitorFacts.cpupct_is_ratio_per_thousand (at_second 2) monitor
              1000000000 Hts Hnow) as (q & Hq & Heq).
  exists q. split; [exact Hq |].
  etransitivity; [exact Heq |]. vm_compute. reflexivity.
Defined.

(** The reading drifts as well.  [_cpupct] stores what
    [process.cpuUsage] returned, a difference, and hands it back as the
    previous reading: the process uses half a second of CPU time in every
    second, yet the third sample reads a full second. *)
Lemma cpu_usage_baseline_drifts :
  let this := (tick (node no_env) (at_second 2) monitor).2 in
  lastCPUUsage_ this = Some {| user := 400000; system := 100000 |} /\
  cpuUsage (at_second 3) (lastCPUUsage_ this) =
    {| user := 800000; system := 200000 |}.
Proof. vm_compute. done. Qed.

(** C3, as stated, fails: the rate 1.5 is not an integer, and
    construction succeeds, emits the first sample, and arms the timer
    with 666 ms. *)
Lemma non_integer_rate_accepted :
  (inject_Z (Qfloor (3 # 2)) < 3 # 2)%Q /\
  let '(result, this) :=
    Monitor.new (node no_env) (with_rate (Fin (3 # 2))) 0 (at_second 1) in
  result = inr tt /\
  length (Readable.buffer (stream this)) = 1%nat /\
  delay <$> timer_ this = Some (of_Z 666).
Proof. vm_compute. done. Qed.

Lemma rate_out_of_range_rejected_witness :
  out_of_range (Fin 0) /\
  let '(result, this) :=
    Monitor.new (node no_env) (with_rate (Fin 0)) 0 (at_second 1) in
  result = inl (RangeError "options.hz must be a number between 1 and 1000") /\
  Readable.buffer (stream this) = [] /\
  calls this = [] /\
  timer_ this = None.
Proof.
  assert (Hout : out_of_range (Fin 0)) by (left; reflexivity).
  split; [exact Hout |].
  exact (MonitorFacts.rate_out_of_range_rejected (node no_env)
           {| hz := Some (VNumber (Fin 0)); handles := None; gc := None |}
           (Fin 0) 0 (at_second 1) eq_refl Hout).
Defined.

Lemma tick_interval_witness :
  (let '(result, this) :=
     Monitor.new (node no_env) (with_rate (of_Z 7)) 0 (at_second 1) in
   result = inr tt /\
   delay <$> timer_ this = Some (of_Z 142) /\
   elmonitor_ this = Some {| resolution := of_Z 142; enabled := true |}) /\
  (let '(result, this) :=
     Monitor.new (node hz_10) (ArgObject no_options) 0 (at_second 1) in
   result = inr tt /\
   delay <$> timer_ this = Some (of_Z 100) /\
   elmonitor_ this = Some {| resolution := of_Z 100; enabled := true |}).
Proof.
  split.
  - assert (Hr : 1 <= 7 <= 1000) by lia.
    pose proof (MonitorFacts.tick_interval (node no_env)
                  {| hz := Some (VNumber (of_Z 7)); handles := None;
                     gc := None |}
                  7 0 (at_second 1) Hr (or_introl eq_refl)
                  (or_introl eq_refl)) as H.
    revert H. cbv zeta. destruct (Monitor.new _ _ _ _) as [result this].
    intros (Hd & _ & Hok). destruct (Hok eq_refl) as [-> ->]. done.
  - assert (Hr : 1 <= 10 <= 1000) by lia.
    pose proof (MonitorFacts.tick_interval (node hz_10) no_options
                  10 0 (at_second 1) Hr (or_intror (conj eq_refl eq_refl))
                  (or_introl eq_refl)) as H.
    revert H. cbv zeta. destruct (Monitor.new _ _ _ _) as [result this].
    intros (Hd & _ & Hok). destruct (Hok eq_refl) as [-> ->]. done.
Defined.

Lemma first_sample_before_timer_witness :
  Monitor.new (node no_env) (ArgValue VUndefined) 0 (at_second 1) =
    (inr tt, monitor) /\
  exists sample d rest,
    calls monitor = Push (Some sample) :: SetInterval d :: rest /\
    Forall (fun c => is_push c = false) rest /\
    Readable.buffer (stream monitor) = [sample] /\
    delay <$> timer_ monitor = Some d.
Proof.
  split; [exact monitor_constructed |].
  exact (MonitorFacts.first_sample_before_timer (node no_env)
           (ArgValue VUndefined) 0 (at_second 1) monitor monitor_constructed).
Defined.

(** C10, as stated, fails: with [NOTARE_HZ=2000] and no options the
    delay is 0, which [monitorEventLoopDelay] refuses as a resolution;
    the constructor throws that [RangeError], after the timer was
    armed. *)
Lemma env_rate_rejected_by_runtime :
  parseInt "2000" = of_Z 2000 /\
  let '(result, this) :=
    Monitor.new (node hz_2000) (ArgValue VUndefined) 0 (at_second 1) in
  result = inl (RangeError "resolution") /\
  timer_ this = Some {| delay := of_Z 0; hasRef := true |}.
Proof. vm_compute. done. Qed.

Lemma env_rate_unchecked_witness :
  parseInt "2000" = of_Z 2000 /\ 1000 < 2000 /\
  (let '(result, this) :=
     Monitor.new (old_node hz_2000) (ArgObject no_options) 0 (at_second 1) in
   result = inr tt /\ delay <$> timer_ this = Some (of_Z 0)) /\
  (let '(result, this) :=
     Monitor.new (node hz_2000) (ArgObject no_options) 0 (at_second 1) in
   result = inl (RangeError "resolution") /\
   delay <$> timer_ this = Some (of_Z 0)).
Proof.
  assert (Hn : 1000 < 2000) by lia.
  assert (Hs : "2000" <> "") by discriminate.
  split_and!; [reflexivity | exact Hn | |].
  - pose proof (MonitorFacts.env_rate_unchecked (old_node hz_2000) no_options
                  "2000" 2000 0 (at_second 1) eq_refl (or_introl eq_refl)
                  eq_refl Hs eq_refl Hn) as H.
    revert H. destruct (Monitor.new _ _ _ _) as [result this].
    intros (_ & Hd & Hr). by split.
  - pose proof (MonitorFacts.env_rate_unchecked (node hz_2000) no_options
                  "2000" 2000 0 (at_second 1) eq_refl (or_introl eq_refl)
                  eq_refl Hs eq_refl Hn) as H.
    revert H. destruct (Monitor.new _ _ _ _) as [result this].
    intros (_ & Hd & Hr). by split.
Defined.

End Examples.

(** * Further properties *)

(** ** Insertion-ordered maps, continued *)

Module JsMapMore.
Section JsMapMore.
Context {K V : Type} `{EqDecision K}.
Implicit Types (k : K) (v : V) (m : JsMap.t K V).

Lemma set_present k v m : JsMap.get k m = Some v -> JsMap.set k v m = m.
Proof.
  induction m as [|[k0 v0] m IH]; simpl; [done |].
  destruct (decide (k = k0)) as [->|Hne]; [by intros [= ->] |].
  intros Hget. by rewrite IH.
Qed.

Lemma set_absent k v m :
  JsMap.get k m = None -> JsMap.set k v m = m ++ [(k, v)].
Proof.
  induction m as [|[k0 v0] m IH]; simpl; [done |].
  destruct (decide (k = k0)); [done |]. intros Hget. by rewrite IH.
Qed.

Lemma set_set k v1 v2 m :
  JsMap.set k v2 (JsMap.set k v1 m) = JsMap.set k v2 m.
Proof.
  induction m as [|[k0 v0] m IH]; simpl.
  - by rewrite decide_True.
  - destruct (decide (k = k0)) as [->|Hne]; simpl.
    + by rewrite decide_True.
    + rewrite decide_False by done. by rewrite IH.
Qed.

Lemma delete_last k v m :
  JsMap.get k m = None -> JsMap.delete k (m ++ [(k, v)]) = m.
Proof.
  induction m as [|[k0 v0] m IH]; simpl.
  - by rewrite decide_True.
  - destruct (decide (k = k0)); [done |]. intros Hget. by rewrite IH.
Qed.

End JsMapMore.
End JsMapMore.

(** ** HandleTracker, continued *)

Module HandleTrackerMore.
Import JS HandleTracker HandleTrackerFacts.

(** X1. After any sequence of events every raw count held in [#counts]
    is an integer, at least 1, and at least the number of identifiers
    registered under its type: no entry is [NaN], zero or negative. *)
Theorem raw_counts_positive (es : list event) (type : string) (c : count) :
  JsMap.get type (counts_ (run es new)) = Some c ->
  exists z, c = Int z /\ 1 <= z /\
            Z.of_nat (live type (types_ (run es new))) <= z.
Proof.
  intros Hget. destruct (invariant_run es new invariant_new) as [_ Hok].
  specialize (Hok type). unfold count_ok in Hok. rewrite Hget in Hok.
  destruct c as [z|]; [|done]. by exists z.
Qed.

(** *** Counting with fresh identifiers *)

Lemma live_insert_fresh id type m :
  m !! id = None -> live type (<[id := type]> m) = S (live type m).
Proof.
  intros Hid. unfold live. rewrite map_filter_insert_True by done.
  rewrite map_size_insert_None; [done |].
  apply map_lookup_filter_None. by left.
Qed.

Lemma live_insert_fresh_other id type s m :
  m !! id = None -> s <> type -> live s (<[id := type]> m) = live s m.
Proof.
  intros Hid Hne. unfold live.
  rewrite map_filter_insert_False by (simpl; congruence).
  by rewrite delete_id.
Qed.

Lemma live_delete_other id type s m :
  m !! id = Some type -> s <> type -> live s (delete id m) = live s m.
Proof.
  intros Hid Hne. unfold live. rewrite map_filter_delete.
  rewrite map_size_delete_None; [done |].
  apply map_lookup_filter_None. right. intros x Hx. simpl. congruence.
Qed.

Lemma live_pos id type m : m !! id = Some type -> live type m <> 0%nat.
Proof.
  intros Hid. pose proof (live_delete_same id type m Hid). lia.
Qed.

Lemma exact_new : exact new.
Proof.
  split; [apply wf_new |]. intros type. unfold count_exact, live; simpl.
  by rewrite map_filter_empty, map_size_empty.
Qed.

Lemma exact_hook_init id type self :
  types_ self !! id = None -> exact self -> exact (hook_init id type self).
Proof.
  intros Hid [Hwf Hex]. split; [by apply wf_hook_init |].
  intros s. specialize (Hex s). unfold count_exact in *.
  unfold hook_init, JsMap.has; simpl.
  destruct (decide (s = type)) as [->|Hne].
  - rewrite (live_insert_fresh id type _ Hid). rewrite Hex.
    destruct (decide (live type (types_ self) = 0%nat)) as [H0|Hn]; simpl;
      rewrite JsMapFacts.get_set, decide_True by done.
    + by rewrite H0.
    + do 2 f_equal. lia.
  - rewrite (live_insert_fresh_other id type s _ Hid Hne).
    destruct (negb _); by rewrite JsMapFacts.get_set, decide_False.
Qed.

Lemma exact_hook_destroy id self : exact self -> exact (hook_destroy id self).
Proof.
  intros [Hwf Hex]. split; [by apply wf_hook_destroy |].
  intros s. unfold count_exact, hook_destroy.
  destruct (types_ self !! id) as [type|] eqn:Hid; simpl.
  2: { rewrite delete_id by done. apply Hex. }
  pose proof (Hex type) as Htype. unfold count_exact in Htype.
  pose proof (live_delete_same id type (types_ self) Hid) as Hlive.
  rewrite decide_False in Htype by lia. rewrite Htype.
  rewrite JsMapFacts.get_set, decide_True by done. simpl.
  destruct (decide (s = type)) as [->|Hne].
  - case_bool_decide as Hc.
    + rewrite JsMapFacts.get_delete, decide_True
        by (done || by apply JsMapFacts.wf_set).
      rewrite decide_True by lia. done.
    + rewrite JsMapFacts.get_set, decide_True by done.
      rewrite decide_False by lia. do 2 f_equal. lia.
  - rewrite (live_delete_other id type s _ Hid Hne).
    specialize (Hex s). unfold count_exact in Hex. rewrite <- Hex.
    case_bool_decide.
    + rewrite JsMapFacts.get_delete, decide_False
        by (done || by apply JsMapFacts.wf_set).
      by rewrite JsMapFacts.get_set, decide_False.
    + by rewrite JsMapFacts.get_set, decide_False.
Qed.

Lemma exact_run es self :
  fresh_ids es self = true -> exact self -> exact (run es self).
Proof.
  revert self. induction es as [|e es IH]; simpl; intros self Hfresh Hex;
    [done |].
  apply andb_true_iff in Hfresh as [He Hes]. apply IH; [done |].
  unfold deliver. destruct (hook_enabled self); [|done].
  destruct e as [id type|id].
  - apply exact_hook_init; [|done]. by apply bool_decide_eq_true_1 in He.
  - by apply exact_hook_destroy.
Qed.

(** X2. When no [init] reuses an identifier that is still registered,
    the raw count of every type is exactly the number of identifiers
    currently registered under it, and a type with none has no entry. *)
Theorem counts_are_live_resources (es : list event) (type : string) :
  fresh_ids es new = true ->
  JsMap.get type (counts_ (run es new)) =
  if decide (live type (types_ (run es new)) = 0%nat) then None
  else Some (Int (Z.of_nat (live type (types_ (run es new))))).
Proof.
  intros Hfresh. destruct (exact_run es new Hfresh exact_new) as [_ Hex].
  apply Hex.
Qed.

(** X3. On a tracker reached by any events, [init] of an identifier
    that is not registered followed by [destroy] of it gives back the very
    same tracker: both maps, entry order included. *)
Theorem init_destroy_round_trip (es : list event) (id : Z) (type : string) :
  let self := run es new in
  types_ self !! id = None ->
  hook_destroy id (hook_init id type self) = self.
Proof.
  intros self Hid.
  destruct (invariant_run es new invariant_new) as [Hwf Hok]. fold self in Hwf, Hok.
  specialize (Hok type). unfold count_ok in Hok.
  destruct self as [types counts enabled]. simpl in *.
  unfold hook_destroy, hook_init, JsMap.has; simpl.
  rewrite lookup_insert_eq, delete_insert_id by done. f_equal.
  destruct (JsMap.get type counts) as [[c|]|] eqn:Hget; simpl; [| done |].
  - rewrite JsMapFacts.get_set, decide_True by done. simpl.
    rewrite JsMapMore.set_set.
    rewrite JsMapFacts.get_set, decide_True by done. simpl.
    rewrite bool_decide_eq_false_2 by lia.
    apply JsMapMore.set_present. rewrite Hget. do 2 f_equal. lia.
  - rewrite JsMapFacts.get_set, decide_True by done. simpl.
    rewrite JsMapMore.set_set.
    rewrite JsMapFacts.get_set, decide_True by done. simpl.
    rewrite (JsMapMore.set_absent _ _ _ Hget).
    by apply JsMapMore.delete_last.
Qed.

(** X4. A type that is not reserved is reported with its raw count,
    and is reported whenever it has one. *)
Theorem unreserved_reported_raw (es : list event) (key : string) (value : count) :
  reserved key = false ->
  (key, value) ∈ entries (counts (run es new)) <->
  JsMap.get key (counts_ (run es new)) = Some value.
Proof.
  intros Hres.
  destruct (invariant_run es new invariant_new) as [Hwf Hok].
  specialize (Hok key). unfold count_ok in Hok.
  rewrite elem_of_entries by done. split.
  - intros (raw & Hget & Hrep). apply reported_Some in Hrep as (_ & -> & _).
    by rewrite Hres.
  - intros Hget. exists value. split; [done |]. rewrite Hget in Hok.
    destruct value as [z|]; [|done]. unfold reported; simpl. rewrite Hres.
    simpl. by rewrite bool_decide_eq_true_2 by lia.
Qed.

(** X5. The titles of a snapshot follow the order of [#counts], and no
    type is listed twice. *)
Theorem titles_ordered_distinct (es : list event) :
  let self := run es new in
  titles (counts self) `sublist_of` JsMap.keys (counts_ self) /\
  NoDup (titles (counts self)).
Proof.
  intros self.
  assert (Hsub : titles (counts self) `sublist_of` JsMap.keys (counts_ self)).
  { rewrite titles_entries, entries_counts. unfold JsMap.keys.
    induction (counts_ self) as [|[k v] m IH]; simpl; [constructor |].
    destruct (reported (k, v)) as [[k' v']|] eqn:Hrep; simpl.
    - apply reported_Some in Hrep as (<- & _). simpl. by constructor.
    - by constructor. }
  split; [done |]. eapply sublist_NoDup; [|exact Hsub].
  apply (wf_run es new wf_new).
Qed.

(** X6. An [init] that names an identifier still registered under another
    type moves the identifier and leaves the old type's raw count as it
    was; the following [destroy] does not touch it either, so that count is
    never given back. *)
Theorem reinit_keeps_old_count (es : list event) (id : Z) (old type : string) :
  let self := run es new in
  types_ self !! id = Some old -> old <> type ->
  let self' := hook_destroy id (hook_init id type self) in
  types_ self' !! id = None /\
  JsMap.get old (counts_ self') = JsMap.get old (counts_ self) /\
  exists z, JsMap.get old (counts_ self) = Some (Int z) /\ 1 <= z.
Proof.
  intros self Hid Hne self'.
  destruct (invariant_run es new invariant_new) as [Hwf Hok]. fold self in Hwf, Hok.
  pose proof (wf_hook_init id type self Hwf) as Hwf1.
  split_and!.
  - subst self'. unfold hook_destroy, hook_init; simpl.
    rewrite lookup_insert_eq. simpl. apply lookup_delete_eq.
  - subst self'. unfold hook_destroy. simpl types_ at 1.
    replace (types_ (hook_init id type self) !! id) with (Some type)
      by (unfold hook_init; simpl; by rewrite lookup_insert_eq).
    simpl counts_.
    transitivity (JsMap.get old (counts_ (hook_init id type self))).
    + match goal with |- context [if ?b then _ else _] => destruct b end.
      * rewrite JsMapFacts.get_delete, decide_False
          by (done || by apply JsMapFacts.wf_set).
        by rewrite JsMapFacts.get_set, decide_False.
      * by rewrite JsMapFacts.get_set, decide_False.
    + unfold hook_init; simpl.
      destruct (negb _); by rewrite JsMapFacts.get_set, decide_False.
  - specialize (Hok old). unfold count_ok in Hok.
    pose proof (live_pos id old _ Hid) as Hlive.
    destruct (JsMap.get old (counts_ self)) as [[z|]|]; [| done | done].
    exists z. split; [done | lia].
Qed.

End HandleTrackerMore.

(** ** GCTracker *)

Module GCTrackerFacts.
Import JS GCTracker.

Lemma of_kind_cons k e entries :
  of_kind k (e :: entries) =
  (if decide (Node.kind e = k) then 1 else 0) + of_kind k entries.
Proof.
  unfold of_kind. rewrite filter_cons.
  destruct (decide (Node.kind e = k)); simpl length; lia.
Qed.

(** X7. A batch of entries adds every duration to the histogram, in
    order, and raises each of the four counters by the number of entries
    of its kind (0 scavenge, 1 sweep, 2 incremental, 3 weak callback); an
    entry of any other kind is recorded and counted nowhere.  Nothing is
    ever reset. *)
Theorem observe_counts (entries : list Node.PerformanceEntry) (self : t) :
  let self' := observe entries self in
  duration_ self' = duration_ self ++ (Node.duration <$> entries) /\
  scavenges_ self' = scavenges_ self + of_kind 0 entries /\
  sweeps_ self' = sweeps_ self + of_kind 1 entries /\
  incremental_ self' = incremental_ self + of_kind 2 entries /\
  weakcbs_ self' = weakcbs_ self + of_kind 3 entries.
Proof.
  simpl. revert self. induction entries as [|e entries IH]; intros self.
  - unfold of_kind; simpl. rewrite app_nil_r. split_and!; lia || done.
  - unfold observe in *. simpl fold_left.
    destruct (IH (observe_entry self e)) as (Hd & H0 & H1 & H2 & H3).
    rewrite Hd, H0, H1, H2, H3, !of_kind_cons. rewrite fmap_cons.
    unfold observe_entry; simpl. rewrite <- app_assoc. simpl.
    split_and!; [done | ..]; repeat case_decide; lia.
Qed.

End GCTrackerFacts.

(** ** Monitor, continued *)

Module MonitorMore.
Import JS Node Monitor MonitorFacts.

(** A rate that is [NaN], [undefined] or absent leaves the delay to the
    default rate. *)
Lemma delay_of_fallback P o :
  hz o = Some (VNumber NaN) \/ hz o = Some VUndefined \/ hz o = None ->
  delay_of P (spread (kDefaultMonitorOptions P) o) =
  delay_of P (kDefaultMonitorOptions P).
Proof.
  intros Hhz. unfold delay_of. do 3 f_equal. unfold spread, JS.or.
  destruct Hhz as [-> | [-> | ->]]; simpl.
  all: destruct (number_truthy (parseInt P _)) eqn:Ht; simpl; rewrite ?Ht;
    reflexivity.
Qed.

#[local] Arguments delay_of : simpl never.
#[local] Arguments spread : simpl never.
#[local] Arguments kDefaultMonitorOptions : simpl never.
#[local] Arguments truthy : simpl never.
#[local] Arguments lt : simpl never.
#[local] Arguments gt : simpl never.
#[local] Arguments div : simpl never.
#[local] Arguments Math_floor : simpl never.
#[local] Arguments Readable.push : simpl never.

(** *** The constructor, in full *)

(** The object [start] leaves behind, field by field. *)
Lemma start_state P o t0 r0 :
  let o' := spread (kDefaultMonitorOptions P) o in
  let d := delay_of P o' in
  exists s,
    Common.eventLoop s = None /\ Common.handles s = None /\
    Common.gc s = None /\
    let '(result, this) := start P o t0 r0 super in
    Readable.buffer (stream this) = [s] /\
    Readable.ended (stream this) = false /\
    options_ this = Some o' /\
    lastTS_ this = Some (hrtime_bigint r0) /\
    lastCPUUsage_ this = Some (cpuUsage r0 None) /\
    match result with
    | inr _ =>
        timer_ this = Some {| delay := d; hasRef := false |} /\
        elmonitor_ this =
          (fun _ => {| resolution := d; enabled := true |}) <$>
            monitorEventLoopDelay P /\
        (forall create, monitorEventLoopDelay P = Some create ->
                        create d = None) /\
        handles_ this =
          (if truthy (JS.prop (handles o')) then Some HandleTracker.new
           else None) /\
        gc_ this =
          (if truthy (JS.prop (gc o')) then Some GCTracker.new else None)
    | inl e =>
        timer_ this = Some {| delay := d; hasRef := true |} /\
        elmonitor_ this = None /\ handles_ this = None /\ gc_ this = None /\
        exists create, monitorEventLoopDelay P = Some create /\
                       create d = Some e
    end.
Proof.
  intros o' d. unfold start.
  destruct (sample_run P r0
              (set_lastTS (Some t0) (set_options (Some o') super)) t0 eq_refl)
    as (s & Hs & _ & Hh & Hg & Hel).
  exists s. split_and!; [exact Hel | exact Hh | exact Hg |].
  clear Hh Hg Hel. revert Hs. subst d o'.
  cbv beta iota zeta delta
    [mbind M_bind modify deref call when throw mret M_ret super
     set_lastTS set_options set_lastCPUUsage set_stream set_timer
     set_elmonitor set_handles set_gc add_call
     stream options_ timer_ elmonitor_ lastTS_ lastCPUUsage_ handles_ gc_
     calls].
  intros ->.
  set (o' := spread (kDefaultMonitorOptions P) o). set (d := delay_of P o').
  destruct (monitorEventLoopDelay P) as [create|] eqn:Hcreate;
    [destruct (create d) eqn:Hd|].
  all: simpl.
  all: repeat (match goal with
               | |- context [truthy ?v] => destruct (truthy v)
               end; simpl).
  all: split_and!; try reflexivity; try done.
  all: try (intros create' [= <-]; done).
  all: by exists create.
Qed.

(** X8. An argument that is neither [undefined] nor an object ([null]
    included) is refused with a [TypeError] before anything is done. *)
Theorem non_object_argument_rejected P v t0 r0 :
  v <> VUndefined -> v <> VObject ->
  Monitor.new P (ArgValue v) t0 r0 =
  (inl (TypeError "options must be an object"), super).
Proof.
  intros Hu Ho. rewrite new_run.
  assert ((validate P (ArgValue v) super).1 =
          inl (TypeError "options must be an object")) as ->; [|done].
  by destruct v.
Qed.

(** X9. A rate that is present and neither [undefined] nor a number is
    refused with a [TypeError], whatever the other options are. *)
Theorem rate_of_wrong_type_rejected P o v t0 r0 :
  hz o = Some v -> v <> VUndefined -> (forall n, v <> VNumber n) ->
  Monitor.new P (ArgObject o) t0 r0 =
  (inl (TypeError "options.hz must be a number between 1 and 1000"), super).
Proof.
  intros Hhz Hu Hn. rewrite new_run.
  assert ((validate P (ArgObject o) super).1 =
          inl (TypeError "options.hz must be a number between 1 and 1000"))
    as ->; [|done].
  unfold validate. exec. simpl. rewrite Hhz. simpl.
  destruct v as [| |b|n|s|]; try reflexivity; [done | by destruct (Hn n)].
Qed.

(** X10. With a rate the checks accept, a [handles] flag that is present
    and neither [undefined] nor a boolean is refused with a
    [TypeError]. *)
Theorem handles_of_wrong_type_rejected P o t0 r0 :
  (JS.prop (hz o) = VUndefined \/
   exists n, JS.prop (hz o) = VNumber n /\ ~ out_of_range n) ->
  ~ boolean_or_undefined (JS.prop (handles o)) ->
  Monitor.new P (ArgObject o) t0 r0 =
  (inl (TypeError "options.handles must be a boolean"), super).
Proof.
  intros Hhz Hh. rewrite new_run.
  assert ((validate P (ArgObject o) super).1 =
          inl (TypeError "options.handles must be a boolean")) as ->; [|done].
  unfold validate. exec. simpl.
  assert (Hh' : negb (is_undefined (JS.prop (handles o))) &&
                negb (String.eqb (typeof (JS.prop (handles o))) "boolean")
                = true).
  { destruct (JS.prop (handles o)) as [| |b| | |]; try reflexivity.
    - destruct Hh. by left.
    - destruct Hh. right. by exists b. }
  destruct Hhz as [->|(n & -> & Hn)]; simpl.
  - by rewrite Hh'.
  - rewrite <- out_of_range_check in Hn. apply not_true_is_false in Hn.
    rewrite Hn. by rewrite Hh'.
Qed.

(** *** Accepted options *)

Lemma accepted_run P o t0 r0 :
  (JS.prop (hz o) = VUndefined \/
   exists n, JS.prop (hz o) = VNumber n /\ ~ out_of_range n) ->
  boolean_or_undefined (JS.prop (handles o)) ->
  Monitor.new P (ArgObject o) t0 r0 = start P o t0 r0 super.
Proof. intros Hhz Hh. by rewrite new_run, validate_accepts. Qed.

Lemma new_cases P a t0 r0 :
  (exists e, Monitor.new P a t0 r0 = (inl e, super)) \/
  (exists o, Monitor.new P a t0 r0 = start P o t0 r0 super /\
             (validate P a super).1 = inr o).
Proof.
  rewrite new_run. destruct (validate P a super).1 as [e|o]; [left|right];
    by eauto.
Qed.

(** X11. The rate [NaN] passes both checks, and the delay is then the
    one the default rate gives: what construction without a rate would
    use. *)
Theorem nan_rate_falls_back P o t0 r0 :
  hz o = Some (VNumber NaN) ->
  boolean_or_undefined (JS.prop (handles o)) ->
  let without :=
    {| hz := None; handles := handles o; gc := gc o |} in
  let '(result, this) := Monitor.new P (ArgObject o) t0 r0 in
  let '(result', this') := Monitor.new P (ArgObject without) t0 r0 in
  result = result' /\
  delay <$> timer_ this = delay <$> timer_ this' /\
  (hz <$> options_ this) = Some (Some (VNumber NaN)).
Proof.
  intros Hhz Hh without.
  assert (Ho : Monitor.new P (ArgObject o) t0 r0 = start P o t0 r0 super).
  { apply accepted_run; [|done]. right. exists NaN. rewrite Hhz.
    split; [done | by intros []]. }
  assert (Hw : Monitor.new P (ArgObject without) t0 r0 =
               start P without t0 r0 super).
  { apply accepted_run; [by left | done]. }
  rewrite Ho, Hw.
  destruct (start_state P o t0 r0) as (s & _ & _ & _ & Hrun).
  destruct (start_state P without t0 r0) as (s' & _ & _ & _ & Hrun').
  assert (Hd : delay_of P (spread (kDefaultMonitorOptions P) o) =
               delay_of P (spread (kDefaultMonitorOptions P) without)).
  { rewrite !delay_of_fallback; [done | by right; right | by left]. }
  rewrite <- Hd in Hrun'.
  destruct (start P o t0 r0 super) as [result this].
  destruct (start P without t0 r0 super) as [result' this'].
  destruct Hrun as (_ & _ & Hopt & _ & _ & Hres).
  destruct Hrun' as (_ & _ & _ & _ & _ & Hres').
  assert (Hstored : hz <$> options_ this = Some (Some (VNumber NaN))).
  { rewrite Hopt. simpl. unfold spread. by rewrite Hhz. }
  destruct result as [e|[]], result' as [e'|[]].
  - destruct Hres as (-> & _ & _ & _ & create & Hc & He).
    destruct Hres' as (-> & _ & _ & _ & create' & Hc' & He').
    rewrite Hc in Hc'. injection Hc' as <-. rewrite He in He'.
    injection He' as <-. done.
  - destruct Hres as (_ & _ & _ & _ & create & Hc & He).
    destruct Hres' as (_ & _ & Hok & _). rewrite (Hok _ Hc) in He. done.
  - destruct Hres' as (_ & _ & _ & _ & create & Hc & He).
    destruct Hres as (_ & _ & Hok & _). rewrite (Hok _ Hc) in He. done.
  - destruct Hres as (-> & _). destruct Hres' as (-> & _). done.
Qed.

(** X12. A flag that is not given takes the value of its environment
    variable: after a successful construction the handle tracker exists
    exactly when [NOTARE_HANDLES] is ["1"], and the GC tracker exactly when
    [NOTARE_GC] is ["1"]. *)
Theorem flags_default_to_environment P o t0 r0 this :
  handles o = None -> gc o = None ->
  Monitor.new P (ArgObject o) t0 r0 = (inr tt, this) ->
  (is_Some (handles_ this) <-> NOTARE_HANDLES (env P) = Some "1") /\
  (is_Some (gc_ this) <-> NOTARE_GC (env P) = Some "1").
Proof.
  intros Hh Hg Hnew.
  destruct (new_cases P (ArgObject o) t0 r0) as [[e He]|(o1 & Hrun & Hval)];
    [congruence |].
  assert (o1 = o) as ->.
  { revert Hval. unfold validate. exec. simpl.
    repeat (match goal with
            | |- context [if ?b then _ else _] => destruct b
            end; try done); by intros [= ->]. }
  rewrite Hrun in Hnew.
  destruct (start_state P o t0 r0) as (s & _ & _ & _ & Hst).
  rewrite Hnew in Hst. destruct Hst as (_ & _ & _ & _ & _ & _ & _ & _ & Hhs & Hgs).
  rewrite Hhs, Hgs. unfold spread, kDefaultMonitorOptions. rewrite Hh, Hg.
  simpl. unfold truthy.
  split; case_bool_decide; split; try done; by intros [? ?].
Qed.

(** X13. A flag given as [undefined] replaces the environment's value:
    no tracker is started for it, whatever the environment says. *)
Theorem undefined_flag_overrides_environment P o t0 r0 this :
  Monitor.new P (ArgObject o) t0 r0 = (inr tt, this) ->
  (handles o = Some VUndefined -> handles_ this = None) /\
  (gc o = Some VUndefined -> gc_ this = None).
Proof.
  intros Hnew.
  destruct (new_cases P (ArgObject o) t0 r0) as [[e He]|(o1 & Hrun & Hval)];
    [congruence |].
  assert (o1 = o) as ->.
  { revert Hval. unfold validate. exec. simpl.
    repeat (match goal with
            | |- context [if ?b then _ else _] => destruct b
            end; try done); by intros [= ->]. }
  rewrite Hrun in Hnew.
  destruct (start_state P o t0 r0) as (s & _ & _ & _ & Hst).
  rewrite Hnew in Hst. destruct Hst as (_ & _ & _ & _ & _ & _ & _ & _ & Hhs & Hgs).
  rewrite Hhs, Hgs. unfold spread.
  split; intros ->; reflexivity.
Qed.


(** *** What construction leaves behind *)

Lemma constructed_state_aux P a t0 r0 this :
  Monitor.new P a t0 r0 = (inr tt, this) ->
  exists tm ts,
    timer_ this = Some tm /\ lastTS_ this = Some ts /\
    Readable.ended (stream this) = false.
Proof.
  intros Hnew.
  destruct (new_cases P a t0 r0) as [[e He]|(o & Hrun & _)]; [congruence |].
  rewrite Hrun in Hnew.
  destruct (start_state P o t0 r0) as (s & _ & _ & _ & Hst).
  rewrite Hnew in Hst.
  destruct Hst as (_ & Hended & _ & Hts & _ & Htm & _).
  by eauto.
Qed.

(** X14. After a successful construction the timer is armed and
    unref'd, so it does not keep the process alive; the delay monitor
    exists exactly where the runtime offers one, enabled and with the
    timer's delay as resolution; the clock fields hold the readings of the
    first sample; the stream is open. *)
Theorem constructed_state P a t0 r0 this :
  Monitor.new P a t0 r0 = (inr tt, this) ->
  exists d,
    timer_ this = Some {| delay := d; hasRef := false |} /\
    elmonitor_ this =
      (fun _ => {| resolution := d; enabled := true |}) <$>
        monitorEventLoopDelay P /\
    lastTS_ this = Some (hrtime_bigint r0) /\
    lastCPUUsage_ this = Some (cpuUsage r0 None) /\
    Readable.ended (stream this) = false.
Proof.
  intros Hnew.
  destruct (new_cases P a t0 r0) as [[e He]|(o & Hrun & _)]; [congruence |].
  rewrite Hrun in Hnew.
  destruct (start_state P o t0 r0) as (s & _ & _ & _ & Hst).
  rewrite Hnew in Hst.
  destruct Hst as (_ & Hended & _ & Hts & Hcpu & Htm & Hel & _).
  by eauto 10.
Qed.

(** X15. A construction that fails has either done nothing at all, or
    failed in [monitorEventLoopDelay]: then one sample is already in the
    buffer and the timer stays armed and ref'd, with no delay monitor and
    no tracker. *)
Theorem failed_construction P a t0 r0 e this :
  Monitor.new P a t0 r0 = (inl e, this) ->
  this = super \/
  exists d create,
    monitorEventLoopDelay P = Some create /\ create d = Some e /\
    timer_ this = Some {| delay := d; hasRef := true |} /\
    length (Readable.buffer (stream this)) = 1%nat /\
    elmonitor_ this = None /\ handles_ this = None /\ gc_ this = None.
Proof.
  intros Hnew.
  destruct (new_cases P a t0 r0) as [[e' He]|(o & Hrun & _)].
  { left. congruence. }
  right. rewrite Hrun in Hnew.
  destruct (start_state P o t0 r0) as (s & _ & _ & _ & Hst).
  rewrite Hnew in Hst.
  destruct Hst as (Hbuf & _ & _ & _ & _ & Htm & Hel & Hh & Hg & create & Hc & He).
  eexists _, create. split_and!; try done. by rewrite Hbuf.
Qed.

(** X16. The sample taken during construction never has an
    [eventLoop], [handles] or [gc] field, whatever the options: the delay
    monitor and the trackers are created after it. *)
Theorem first_sample_is_bare P a t0 r0 s :
  s ∈ Readable.buffer (stream (Monitor.new P a t0 r0).2) ->
  Common.eventLoop s = None /\ Common.handles s = None /\
  Common.gc s = None.
Proof.
  destruct (new_cases P a t0 r0) as [[e He]|(o & Hrun & _)].
  { rewrite He. simpl. by intros ?%elem_of_nil. }
  rewrite Hrun.
  destruct (start_state P o t0 r0) as (s0 & Hel & Hh & Hg & Hst).
  destruct (start P o t0 r0 super) as [result this]. simpl.
  destruct Hst as (-> & _). by intros ->%list_elem_of_singleton.
Qed.

(** *** Samples of a running monitor *)

Lemma set_handles_set_handles x y this :
  set_handles x (set_handles y this) = set_handles x this.
Proof. by destruct this. Qed.

Lemma hooks_run P es this h :
  handles_ this = Some h ->
  steps P (AsyncHook <$> es) this =
  (inr tt, set_handles (Some (HandleTracker.run es h)) this).
Proof.
  revert this h. induction es as [|e es IH]; intros this h Hh.
  - simpl. destruct this; simpl in *; by subst.
  - rewrite fmap_cons. cbn [steps step].
    cbv beta iota zeta delta [mbind M_bind modify].
    rewrite Hh. cbn [fmap option_fmap option_map].
    rewrite (IH _ (HandleTracker.deliver h e)) by (by destruct this).
    by rewrite set_handles_set_handles.
Qed.

(** X17. With handle tracking on, the [handles] field of a sample is
    the tracker's snapshot after all hook events delivered since
    construction: the monitor hands every event to the tracker and reads
    the tracker when it samples. *)
Theorem sample_reports_tracked_handles P a t0 r0 this0 es r :
  Monitor.new P a t0 r0 = (inr tt, this0) ->
  is_Some (handles_ this0) ->
  let this := (steps P (AsyncHook <$> es) this0).2 in
  exists s,
    Readable.buffer (stream (tick P r this).2) =
      Readable.buffer (stream this0) ++ [s] /\
    Common.handles s =
      Some (HandleTracker.counts (HandleTracker.run es HandleTracker.new)).
Proof.
  intros Hnew Hsome this.
  assert (Hh : handles_ this0 = Some HandleTracker.new).
  { destruct (new_cases P a t0 r0) as [[e He]|(o & Hrun & _)]; [congruence |].
    rewrite Hrun in Hnew.
    destruct (start_state P o t0 r0) as (s & _ & _ & _ & Hst).
    rewrite Hnew in Hst.
    destruct Hst as (_ & _ & _ & _ & _ & _ & _ & _ & Hhs & _).
    rewrite Hhs in *. by destruct (truthy _); [|destruct Hsome]. }
  destruct (constructed_state_aux P a t0 r0 this0 Hnew) as (tm & ts & Htm & Hts & Hended).
  subst this. rewrite (hooks_run P es this0 _ Hh). simpl.
  set (this := set_handles _ this0).
  destruct (sample_run P r this ts) as (s & Hs & _ & Hhs & _).
  { by destruct this0. }
  exists s. unfold tick. cbv beta iota zeta delta [mbind M_bind get].
  replace (timer_ this) with (Some tm) by (by destruct this0).
  rewrite Hs. split.
  - destruct this0 as [[buf ended hwm] ? ? ? ? ? ? ? ?]. simpl in *. subst.
    reflexivity.
  - rewrite Hhs. by destruct this0.
Qed.


Lemma steps_frame P inputs this :
  Forall (fun i => is_destroyed i = false) inputs -> running this ->
  exists this',
    steps P inputs this = (inr tt, this') /\
    running this' /\
    elmonitor_ this' = elmonitor_ this /\
    (is_Some (handles_ this') <-> is_Some (handles_ this)) /\
    (is_Some (gc_ this') <-> is_Some (gc_ this)).
Proof.
  intros Hin. revert this.
  induction Hin as [|i inputs Hi _ IH]; intros this Hrun.
  - by exists this.
  - assert (Hstep : exists this1,
              step P i this = (inr tt, this1) /\ running this1 /\
              elmonitor_ this1 = elmonitor_ this /\
              (is_Some (handles_ this1) <-> is_Some (handles_ this)) /\
              (is_Some (gc_ this1) <-> is_Some (gc_ this))).
    { destruct i as [r| |e|entries|]; [| | | |done].
      - destruct Hrun as ([tm Htm] & [ts Hts] & Hended).
        destruct (sample_run P r this ts Hts) as (s & Hs & _).
        eexists. cbn [step]. unfold tick.
        cbv beta iota zeta delta [mbind M_bind get]. rewrite Htm, Hs.
        split; [reflexivity |].
        destruct this as [[buf ended hwm] op tmr el lts lcu h g cs].
        simpl in *. subst. simpl. split_and!; done.
      - destruct this as [[buf ended hwm] op tmr el lts lcu h g cs].
        destruct buf as [|chunk buf]; eexists; (split; [reflexivity |]); done.
      - destruct this as [st op tmr el lts lcu h g cs].
        eexists; (split; [reflexivity |]). simpl.
        split_and!; try done. by rewrite fmap_is_Some.
      - destruct this as [st op tmr el lts lcu h g cs].
        eexists; (split; [reflexivity |]). simpl.
        split_and!; try done. by rewrite fmap_is_Some. }
    destruct Hstep as (this1 & Hstep & Hrun1 & Hel1 & Hh1 & Hg1).
    destruct (IH this1 Hrun1) as (this2 & Hsteps & Hrun2 & Hel2 & Hh2 & Hg2).
    exists this2. simpl. cbv beta iota zeta delta [mbind M_bind].
    rewrite Hstep, Hsteps. split_and!; [done | done | congruence | |].
    + by rewrite Hh2.
    + by rewrite Hg2.
Qed.

(** X18. In every sample a running monitor takes after construction,
    whatever happened in between short of [destroy], the [eventLoop] field
    is present exactly where the runtime has a delay monitor, and the
    [handles] and [gc] fields exactly when their tracker was started. *)
Theorem later_samples_carry_enabled_fields P a t0 r0 this0 inputs r :
  Monitor.new P a t0 r0 = (inr tt, this0) ->
  Forall (fun i => is_destroyed i = false) inputs ->
  let this := (steps P inputs this0).2 in
  exists s,
    Readable.buffer (stream (tick P r this).2) =
      Readable.buffer (stream this) ++ [s] /\
    (is_Some (Common.eventLoop s) <-> is_Some (monitorEventLoopDelay P)) /\
    (is_Some (Common.handles s) <-> is_Some (handles_ this0)) /\
    (is_Some (Common.gc s) <-> is_Some (gc_ this0)).
Proof.
  intros Hnew Hin this.
  destruct (constructed_state_aux P a t0 r0 this0 Hnew)
    as (tm0 & ts0 & Htm0 & Hts0 & Hended0).
  assert (Hel0 : is_Some (elmonitor_ this0) <->
                 is_Some (monitorEventLoopDelay P)).
  { destruct (new_cases P a t0 r0) as [[e He]|(o & Hrun & _)]; [congruence |].
    rewrite Hrun in Hnew.
    destruct (start_state P o t0 r0) as (s & _ & _ & _ & Hst).
    rewrite Hnew in Hst.
    destruct Hst as (_ & _ & _ & _ & _ & _ & -> & _).
    by rewrite fmap_is_Some. }
  destruct (steps_frame P inputs this0 Hin) as
    (this1 & Hsteps & ([tm Htm] & [ts Hts] & Hended) & Hel & Hh & Hg).
  { split_and!; by eauto. }
  subst this. rewrite Hsteps. simpl.
  destruct (sample_run P r this1 ts Hts) as (s & Hs & _ & Hhs & Hgs & Hes).
  exists s. unfold tick. cbv beta iota zeta delta [mbind M_bind get].
  rewrite Htm, Hs. split_and!.
  - destruct this1 as [[buf ended hwm] ? ? ? ? ? ? ? ?]. simpl in *. subst.
    reflexivity.
  - rewrite Hes, fmap_is_Some, Hel. exact Hel0.
  - by rewrite Hhs, fmap_is_Some.
  - by rewrite Hgs, fmap_is_Some.
Qed.

(** *** Teardown *)

Lemma ticks_without_timer P rs this :
  timer_ this = None -> steps P (TimerFires <$> rs) this = (inr tt, this).
Proof.
  intros Htm. induction rs as [|r rs IH]; [done |].
  rewrite fmap_cons. cbn [steps step]. unfold tick.
  cbv beta iota zeta delta [mbind M_bind get mret M_ret]. rewrite Htm.
  exact IH.
Qed.

(** X19. [_destroy] succeeds on a running monitor: it pushes the
    end-of-stream marker once, keeps what is buffered, disables the delay
    monitor and the handle tracker's hook if there are any, clears the
    timer and calls back, in that order; the GC tracker is left as it is.
    Timer ticks after it change nothing. *)
Theorem teardown P this rs :
  running this ->
  let '(result, this') := _destroy this in
  result = inr tt /\
  Readable.ended (stream this') = true /\
  Readable.buffer (stream this') = Readable.buffer (stream this) /\
  timer_ this' = None /\
  elmonitor_ this' =
    (fun m => {| resolution := resolution m; enabled := false |}) <$>
      elmonitor_ this /\
  handles_ this' = HandleTracker.destroy <$> handles_ this /\
  gc_ this' = gc_ this /\
  calls this' =
    calls this ++ [Push None] ++
    match elmonitor_ this with Some _ => [EldDisable] | None => [] end ++
    match handles_ this with Some _ => [HookDisable] | None => [] end ++
    [ClearInterval; Callback] /\
  steps P (TimerFires <$> rs) this' = (inr tt, this').
Proof.
  intros ([tm Htm] & _ & _).
  destruct this as [[buf ended hwm] op tmr [el|] lts lcu [h|] g cs].
  all: simpl in Htm; subst.
  all: unfold _destroy, push; exec; simpl.
  all: split_and!; try reflexivity.
  all: try (rewrite <- !app_assoc; reflexivity).
  all: by apply ticks_without_timer.
Qed.

(** X20. [ref] and [unref] read the timer: once [_destroy] has cleared
    it, both throw a [TypeError] and change nothing. *)
Theorem ref_after_destroy_throws this :
  running this ->
  let this' := (_destroy this).2 in
  exists message,
    ref this' = (inl (TypeError message), this') /\
    unref this' = (inl (TypeError message), this').
Proof.
  intros ([tm Htm] & _ & _). 
  destruct this as [[buf ended hwm] op tmr [el|] lts lcu [h|] g cs].
  all: simpl in Htm; subst.
  all: cbv zeta; unfold _destroy, push; exec; simpl.
  all: unfold ref, unref; exec.
  all: eexists; split; reflexivity.
Qed.

(** X21. After [_destroy] the hook events no longer reach the handle
    tracker, but the GC observer is never disconnected: its tracker goes
    on counting. *)
Theorem teardown_leaves_gc_observing P this e entries :
  running this ->
  let this' := (_destroy this).2 in
  handles_ (step P (AsyncHook e) this').2 = handles_ this' /\
  gc_ (step P (GCObserved entries) this').2 =
    GCTracker.observe entries <$> gc_ this.
Proof.
  intros ([tm Htm] & _ & _).
  destruct this as [[buf ended hwm] op tmr [el|] lts lcu [h|] g cs].
  all: simpl in Htm; subst.
  all: cbv zeta; unfold _destroy, push; exec; simpl.
  all: unfold step; exec.
  all: split; reflexivity.
Qed.

(** *** CPU utilization without elapsed time *)

Lemma Qis_zero_div (z : Z) (k : positive) :
  Qis_zero (inject_Z z / (Z.pos k # 1)) = bool_decide (z = 0).
Proof.
  destruct (decide (z = 0)) as [->|Hz].
  - reflexivity.
  - rewrite bool_decide_eq_false_2 by done. by apply Qis_zero_div_Z.
Qed.

Lemma Qsign_neg_div (z : Z) (k : positive) :
  Qsign_neg (inject_Z z / (Z.pos k # 1)) = bool_decide (z < 0).
Proof.
  unfold Qsign_neg.
  destruct (Qlt_le_dec _ 0) as [H|H]; unfold Qlt, Qle, Qdiv, Qmult, Qinv,
    inject_Z in H; simpl in H.
  - rewrite bool_decide_eq_true_2; [done | lia].
  - rewrite bool_decide_eq_false_2; [done | lia].
Qed.

(** X22. When the clock has not moved since the last sample, the
    division is by zero: [_cpupct] returns [NaN] if no CPU time is
    reported and an infinity otherwise. *)
Theorem cpupct_zero_elapsed r this ts :
  lastTS_ this = Some ts -> hrtime_bigint r = ts ->
  let usage := cpuUsage r (lastCPUUsage_ this) in
  let total := user usage + system usage in
  (_cpupct r this).1 =
  inr (if decide (total = 0) then NaN else Infinity (bool_decide (total < 0))).
Proof.
  intros Hts Hnow usage total.
  rewrite (cpupct_run r this ts Hts). fold usage. fold total. simpl.
  rewrite Hnow, Z.sub_diag. unfold div, of_Z, _1e6.
  change (Qis_zero (1000000 # 1)) with false. cbv beta iota.
  rewrite !Qis_zero_div, Qsign_neg_div.
  rewrite bool_decide_eq_true_2 by done.
  destruct (decide (total = 0)) as [H0|Hn].
  - by rewrite bool_decide_eq_true_2.
  - by rewrite bool_decide_eq_false_2.
Qed.

(** *** The default rate *)

(** X23. Without a usable rate in the options, if the text of
    [NOTARE_HZ] (["0"] when it is unset or empty) parses to zero or to
    [NaN], the rate is 2 and the timer is armed with 500 ms. *)
Theorem default_delay P o t0 r0 :
  hz o = Some (VNumber NaN) \/ hz o = Some VUndefined \/ hz o = None ->
  boolean_or_undefined (JS.prop (handles o)) ->
  (let n := parseInt P (env_or (NOTARE_HZ (env P)) "0") in
   n = NaN \/ n = of_Z 0) ->
  delay <$> timer_ (Monitor.new P (ArgObject o) t0 r0).2 = Some (of_Z 500).
Proof.
  intros Hhz Hh Hparse.
  rewrite accepted_run; [| | done].
  2: { destruct Hhz as [-> | [-> | ->]]; [right | left | left]; try done.
       exists NaN. split; [done | by intros []]. }
  destruct (start_state P o t0 r0) as (s & _ & _ & _ & Hst).
  rewrite (delay_of_fallback P o Hhz) in Hst.
  assert (Hd : delay_of P (kDefaultMonitorOptions P) = of_Z 500).
  { unfold delay_of, kDefaultMonitorOptions, JS.or. cbn [hz JS.prop default].
    simpl in Hparse. destruct Hparse as [-> | ->]; reflexivity. }
  rewrite Hd in Hst.
  destruct (start P o t0 r0 super) as [result this]. simpl.
  destruct Hst as (_ & _ & _ & _ & _ & Hres).
  destruct result; by destruct Hres as (-> & _).
Qed.

End MonitorMore.

(** * Instances of the further properties *)

Module MoreExamples.
Import JS Node.

(** ** HandleTracker *)

Section HandleTrackerInstances.
Import HandleTracker.

Lemma raw_counts_positive_witness :
  let es := [Init 1 "Timeout"; Init 2 "Timeout"] in
  JsMap.get "Timeout" (counts_ (run es new)) = Some (Int 2) /\
  exists z, Int 2 = Int z /\ 1 <= z /\
            Z.of_nat (live "Timeout" (types_ (run es new))) <= z.
Proof.
  split; [reflexivity |].
  apply (HandleTrackerMore.raw_counts_positive
           [Init 1 "Timeout"; Init 2 "Timeout"] "Timeout" (Int 2)).
  reflexivity.
Defined.

Lemma counts_are_live_resources_witness :
  let es := [Init 1 "Timeout"; Init 2 "Timeout"; Destroy 1] in
  fresh_ids es new = true /\
  JsMap.get "Timeout" (counts_ (run es new)) =
  if decide (live "Timeout" (types_ (run es new)) = 0%nat) then None
  else Some (Int (Z.of_nat (live "Timeout" (types_ (run es new))))).
Proof.
  split; [reflexivity |].
  apply (HandleTrackerMore.counts_are_live_resources
           [Init 1 "Timeout"; Init 2 "Timeout"; Destroy 1] "Timeout").
  reflexivity.
Defined.

Lemma init_destroy_round_trip_witness :
  let self := run [Init 1 "Timeout"] new in
  types_ self !! 2 = None /\
  hook_destroy 2 (hook_init 2 "TCPWRAP" self) = self.
Proof.
  split; [reflexivity |].
  apply (HandleTrackerMore.init_destroy_round_trip [Init 1 "Timeout"] 2 "TCPWRAP").
  reflexivity.
Defined.

Lemma unreserved_reported_raw_witness :
  let es := [Init 1 "TCPWRAP"] in
  reserved "TCPWRAP" = false /\
  ((("TCPWRAP", Int 1) : string * count) ∈ entries (counts (run es new)) <->
   JsMap.get "TCPWRAP" (counts_ (run es new)) = Some (Int 1)).
Proof.
  split; [reflexivity |].
  apply (HandleTrackerMore.unreserved_reported_raw [Init 1 "TCPWRAP"] "TCPWRAP" (Int 1)).
  reflexivity.
Defined.

Lemma reinit_keeps_old_count_witness :
  let self := run [Init 1 "Timeout"] new in
  let self' := hook_destroy 1 (hook_init 1 "TCPWRAP" self) in
  types_ self !! 1 = Some "Timeout" /\ "Timeout" <> "TCPWRAP" /\
  types_ self' !! 1 = None /\
  JsMap.get "Timeout" (counts_ self') = JsMap.get "Timeout" (counts_ self) /\
  exists z, JsMap.get "Timeout" (counts_ self) = Some (Int z) /\ 1 <= z.
Proof.
  split; [reflexivity |]. split; [discriminate |].
  apply (HandleTrackerMore.reinit_keeps_old_count [Init 1 "Timeout"] 1 "Timeout" "TCPWRAP");
    [reflexivity | discriminate].
Defined.

End HandleTrackerInstances.

(** ** Monitor *)

Section MonitorInstances.
Import Monitor Fixture.

Lemma non_object_argument_rejected_witness :
  VNull <> VUndefined /\ VNull <> VObject /\
  Monitor.new (node no_env) (ArgValue VNull) 0 (at_second 1) =
  (inl (TypeError "options must be an object"), super).
Proof.
  split; [discriminate |]. split; [discriminate |].
  apply (MonitorMore.non_object_argument_rejected (node no_env) VNull 0 (at_second 1)); discriminate.
Defined.

Lemma rate_of_wrong_type_rejected_witness :
  let o := {| hz := Some (VString "10"); handles := Some (VBoolean true);
              gc := None |} in
  hz o = Some (VString "10") /\
  Monitor.new (node no_env) (ArgObject o) 0 (at_second 1) =
  (inl (TypeError "options.hz must be a number between 1 and 1000"), super).
Proof.
  split; [reflexivity |].
  apply (MonitorMore.rate_of_wrong_type_rejected (node no_env)
           {| hz := Some (VString "10"); handles := Some (VBoolean true);
              gc := None |} (VString "10") 0 (at_second 1));
    [reflexivity | discriminate | discriminate].
Defined.

Lemma handles_of_wrong_type_rejected_witness :
  let o := {| hz := Some (VNumber (Fin 10)); handles := Some (VNumber (Fin 1));
              gc := None |} in
  ~ out_of_range (Fin 10) /\
  ~ boolean_or_undefined (JS.prop (handles o)) /\
  Monitor.new (node no_env) (ArgObject o) 0 (at_second 1) =
  (inl (TypeError "options.handles must be a boolean"), super).
Proof.
  assert (Hhz : ~ out_of_range (Fin 10)).
  { intros [H | H]; vm_compute in H; discriminate. }
  assert (Hh : ~ boolean_or_undefined (VNumber (Fin 1))).
  { intros [H | [b H]]; discriminate. }
  split; [exact Hhz |]. split; [exact Hh |].
  apply (MonitorMore.handles_of_wrong_type_rejected (node no_env)
           {| hz := Some (VNumber (Fin 10)); handles := Some (VNumber (Fin 1));
              gc := None |} 0 (at_second 1)).
  - right. exists (Fin 10). split; [reflexivity | exact Hhz].
  - exact Hh.
Defined.

Lemma nan_rate_falls_back_witness :
  let '(result, this) := Monitor.new (node no_env) (with_rate NaN) 0 (at_second 1) in
  result = inr tt /\ delay <$> timer_ this = delay <$> timer_ monitor.
Proof.
  pose proof (MonitorMore.nan_rate_falls_back (node no_env)
                {| hz := Some (VNumber NaN); handles := None; gc := None |}
                0 (at_second 1) eq_refl (or_introl eq_refl)) as H.
  revert H. cbv zeta.
  change (Monitor.new (node no_env) (ArgObject {| hz := Some (VNumber NaN);
                                      handles := None; gc := None |}) 0 (at_second 1))
    with (Monitor.new (node no_env) (with_rate NaN) 0 (at_second 1)).
  destruct (Monitor.new (node no_env) (with_rate NaN) 0 (at_second 1)) as [result this].
  assert (Hd : Monitor.new (node no_env) (ArgObject
                {| hz := None;
                   handles := handles {| hz := Some (VNumber NaN);
                                         handles := None; gc := None |};
                   gc := gc {| hz := Some (VNumber NaN);
                               handles := None; gc := None |} |}) 0 (at_second 1) =
               (inr tt, monitor)) by (vm_compute; reflexivity).
  rewrite Hd. intros (Hr & Ht & _). split; [exact Hr | exact Ht].
Defined.

Lemma tracked_constructed :
  Monitor.new (node tracking) (ArgObject no_options) 0 (at_second 1) = (inr tt, tracked).
Proof. vm_compute. reflexivity. Qed.

Lemma untracked_constructed :
  Monitor.new (node tracking) (ArgObject handles_undefined) 0 (at_second 1) = (inr tt, untracked).
Proof. vm_compute. reflexivity. Qed.

Lemma failed_constructed :
  Monitor.new (node hz_2000) (ArgValue VUndefined) 0 (at_second 1) =
  (inl (RangeError "resolution"), failed).
Proof. vm_compute. reflexivity. Qed.

Lemma monitor_running : running monitor.
Proof. vm_compute. split_and!; [by eexists | by eexists | reflexivity]. Qed.

Lemma tracked_running : running tracked.
Proof. vm_compute. split_and!; [by eexists | by eexists | reflexivity]. Qed.

Lemma tracked_handles : is_Some (handles_ tracked).
Proof. vm_compute. by eexists. Qed.

Lemma flags_default_to_environment_witness :
  Monitor.new (node tracking) (ArgObject no_options) 0 (at_second 1) = (inr tt, tracked) /\
  (is_Some (handles_ tracked) <-> NOTARE_HANDLES (env (node tracking)) = Some "1") /\
  (is_Some (gc_ tracked) <-> NOTARE_GC (env (node tracking)) = Some "1").
Proof.
  split; [exact tracked_constructed |].
  apply (MonitorMore.flags_default_to_environment (node tracking) no_options 0 (at_second 1) tracked);
    [reflexivity | reflexivity | exact tracked_constructed].
Defined.

Lemma undefined_flag_overrides_environment_witness :
  Monitor.new (node tracking) (ArgObject handles_undefined) 0 (at_second 1) = (inr tt, untracked) /\
  NOTARE_HANDLES (env (node tracking)) = Some "1" /\
  handles_ untracked = None.
Proof.
  split; [exact untracked_constructed |]. split; [reflexivity |].
  apply (MonitorMore.undefined_flag_overrides_environment (node tracking) handles_undefined
           0 (at_second 1) untracked untracked_constructed).
  reflexivity.
Defined.

Lemma constructed_state_witness :
  Monitor.new (node no_env) (ArgValue VUndefined) 0 (at_second 1) = (inr tt, monitor) /\
  exists d,
    timer_ monitor = Some {| delay := d; hasRef := false |} /\
    elmonitor_ monitor =
      (fun _ => {| resolution := d; enabled := true |}) <$>
        Node.monitorEventLoopDelay (node no_env) /\
    lastTS_ monitor = Some (hrtime_bigint (at_second 1)) /\
    lastCPUUsage_ monitor = Some (cpuUsage (at_second 1) None) /\
    Readable.ended (stream monitor) = false.
Proof.
  split; [exact Examples.monitor_constructed |].
  apply (MonitorMore.constructed_state (node no_env) (ArgValue VUndefined) 0 (at_second 1) monitor).
  exact Examples.monitor_constructed.
Defined.

Lemma failed_construction_witness :
  Monitor.new (node hz_2000) (ArgValue VUndefined) 0 (at_second 1) =
    (inl (RangeError "resolution"), failed) /\
  (failed = super \/
   exists d create,
     Node.monitorEventLoopDelay (node hz_2000) = Some create /\
     create d = Some (RangeError "resolution") /\
     timer_ failed = Some {| delay := d; hasRef := true |} /\
     length (Readable.buffer (stream failed)) = 1%nat /\
     elmonitor_ failed = None /\ handles_ failed = None /\
     gc_ failed = None).
Proof.
  split; [exact failed_constructed |].
  apply (MonitorMore.failed_construction (node hz_2000) (ArgValue VUndefined)
           0 (at_second 1) (RangeError "resolution") failed).
  exact failed_constructed.
Defined.

Lemma first_sample_is_bare_witness :
  exists s,
    s ∈ Readable.buffer
          (stream (Monitor.new (node tracking) (ArgObject no_options) 0
                     (at_second 1)).2) /\
    Common.eventLoop s = None /\ Common.handles s = None /\
    Common.gc s = None.
Proof.
  destruct (Readable.buffer
              (stream (Monitor.new (node tracking) (ArgObject no_options) 0
                         (at_second 1)).2)) as [| s l] eqn:Hb.
  { vm_compute in Hb. discriminate. }
  assert (Hin : s ∈ Readable.buffer
                  (stream (Monitor.new (node tracking) (ArgObject no_options)
                             0 (at_second 1)).2))
    by (rewrite Hb; left).
  exists s. split; [left |].
  exact (MonitorMore.first_sample_is_bare (node tracking)
           (ArgObject no_options) 0 (at_second 1) s Hin).
Defined.

Lemma sample_reports_tracked_handles_witness :
  let es := [HandleTracker.Init 1 "TCPWRAP"; HandleTracker.Init 2 "TCPWRAP";
             HandleTracker.Destroy 1] in
  let this := (steps (node tracking) (AsyncHook <$> es) tracked).2 in
  Monitor.new (node tracking) (ArgObject no_options) 0 (at_second 1) = (inr tt, tracked) /\
  is_Some (handles_ tracked) /\
  exists s,
    Readable.buffer (stream (tick (node tracking) (at_second 2) this).2) =
      Readable.buffer (stream tracked) ++ [s] /\
    Common.handles s =
      Some (HandleTracker.counts (HandleTracker.run es HandleTracker.new)).
Proof.
  split; [exact tracked_constructed |]. split; [exact tracked_handles |].
  apply (MonitorMore.sample_reports_tracked_handles (node tracking) (ArgObject no_options)
           0 (at_second 1) tracked
           [HandleTracker.Init 1 "TCPWRAP"; HandleTracker.Init 2 "TCPWRAP";
            HandleTracker.Destroy 1] (at_second 2));
    [exact tracked_constructed | exact tracked_handles].
Defined.

Lemma later_samples_carry_enabled_fields_witness :
  let inputs := ticks_from 2 2 in
  let this := (steps (node tracking) inputs tracked).2 in
  Monitor.new (node tracking) (ArgObject no_options) 0 (at_second 1) = (inr tt, tracked) /\
  Forall (fun i => is_destroyed i = false) inputs /\
  exists s,
    Readable.buffer (stream (tick (node tracking) (at_second 4) this).2) =
      Readable.buffer (stream this) ++ [s] /\
    (is_Some (Common.eventLoop s) <-> is_Some (Node.monitorEventLoopDelay (node tracking))) /\
    (is_Some (Common.handles s) <-> is_Some (handles_ tracked)) /\
    (is_Some (Common.gc s) <-> is_Some (gc_ tracked)).
Proof.
  assert (Hin : Forall (fun i => is_destroyed i = false) (ticks_from 2 2)).
  { unfold ticks_from. apply Forall_fmap, Forall_true. done. }
  split; [exact tracked_constructed |]. split; [exact Hin |].
  apply (MonitorMore.later_samples_carry_enabled_fields (node tracking)
           (ArgObject no_options) 0 (at_second 1) tracked (ticks_from 2 2) (at_second 4));
    [exact tracked_constructed | exact Hin].
Defined.

Lemma teardown_witness :
  running tracked /\
  let '(result, this') := _destroy tracked in
  result = inr tt /\ timer_ this' = None /\
  Readable.ended (stream this') = true /\
  steps (node tracking) (TimerFires <$> [at_second 2; at_second 3]) this' = (inr tt, this').
Proof.
  split; [exact tracked_running |].
  pose proof (MonitorMore.teardown (node tracking) tracked [at_second 2; at_second 3]
                tracked_running) as H.
  revert H. destruct (_destroy tracked) as [result this']. tauto.
Defined.

Lemma ref_after_destroy_throws_witness :
  running monitor /\
  let this' := (_destroy monitor).2 in
  exists message,
    ref this' = (inl (TypeError message), this') /\
    unref this' = (inl (TypeError message), this').
Proof.
  split; [exact monitor_running |].
  exact (MonitorMore.ref_after_destroy_throws monitor monitor_running).
Defined.

Lemma teardown_leaves_gc_observing_witness :
  let e := HandleTracker.Init 7 "TCPWRAP" in
  let entries := [{| kind := 1; duration := Fin 3 |}] in
  running tracked /\
  let this' := (_destroy tracked).2 in
  handles_ (step (node tracking) (AsyncHook e) this').2 = handles_ this' /\
  gc_ (step (node tracking) (GCObserved entries) this').2 =
    GCTracker.observe entries <$> gc_ tracked.
Proof.
  split; [exact tracked_running |].
  exact (MonitorMore.teardown_leaves_gc_observing (node tracking) tracked
           (HandleTracker.Init 7 "TCPWRAP") [{| kind := 1; duration := Fin 3 |}]
           tracked_running).
Defined.

Lemma cpupct_zero_elapsed_witness :
  lastTS_ monitor = Some 1000000000 /\
  hrtime_bigint (at_second 1) = 1000000000 /\
  (_cpupct (at_second 1) monitor).1 = inr NaN.
Proof.
  assert (Hts : lastTS_ monitor = Some 1000000000) by (vm_compute; reflexivity).
  split; [exact Hts |]. split; [reflexivity |].
  etransitivity;
    [exact (MonitorMore.cpupct_zero_elapsed (at_second 1) monitor 1000000000 Hts eq_refl) |].
  vm_compute. reflexivity.
Defined.

Lemma default_delay_witness :
  hz no_options = None /\
  Node.parseInt (node no_env) (env_or (NOTARE_HZ (env (node no_env))) "0") = of_Z 0 /\
  delay <$> timer_ (Monitor.new (node no_env) (ArgObject no_options) 0 (at_second 1)).2 =
  Some (of_Z 500).
Proof.
  split; [reflexivity |]. split; [reflexivity |].
  apply (MonitorMore.default_delay (node no_env) no_options 0 (at_second 1)).
  - right. right. reflexivity.
  - left. reflexivity.
  - right. reflexivity.
Defined.

End MonitorInstances.

End MoreExamples.
